(** * India Demand Pulse dashboard (app.py): anomaly alerts and pulse intake

    A shallow embedding of the Streamlit script [app.py]: the cached store
    read ([load_data]), the store write ([save_data]), the e-mail alert
    function ([send_alert_email]), the "Submit Pulse" page and the "Alerts"
    page, followed by the properties of the detection and alerting pipeline.

    The script is embedded up to its first footer (lines 1-171); the lines
    after it repeat fragments of two page bodies. The four read-only pages
    (dashboard, citizen view, export, recent submissions), the page
    configuration and the sidebar are not part of the development.

    Conventions.
    - A pandas [DataFrame] is its column index together with its rows; a row
      maps column names to cells, and a cell that a row does not define reads
      as [NaN], as pandas fills it.
    - Numeric cells are integers, which is what the intake form produces
      ([st.number_input] with an integer lower bound, [st.slider] over 0..10).
    - Python exceptions are values of [exn]; a script run yields an outcome
      (a value or an uncaught exception), the new process state and the list
      of elements and calls it emitted, in order.
    - Three pieces of the environment are parameters: the numeric core of
      scikit-learn's [IsolationForest] (a function of the contamination, the
      random generator state and the feature matrix), the SMTP relay, and the
      conversion of a text cell to a number. *)

From Stdlib Require Import QArith_base.
From stdpp Require Import base gmap list strings pretty sorting.

Open Scope string_scope.
Open Scope list_scope.
Open Scope nat_scope.

(** ** Cells, rows and frames *)

Inductive cell :=
  | Num (z : Z)
  | Str (s : string)
  | NaN.

#[global] Instance cell_eq_dec : EqDecision cell.
Proof. solve_decision. Defined.

Abbreviation row := (gmap string cell).

Record DataFrame := mkFrame {
  columns : list string;
  rows : list row
}.

(** [len(df)] *)
Definition len (df : DataFrame) : nat := length (rows df).

(** The value a row shows in column [c]. *)
Definition cell_of (r : row) (c : string) : cell := default NaN (r !! c).

(** [str(v)] of a cell, as an f-string renders it. *)
Definition str_cell (v : cell) : string :=
  match v with
  | Num z => pretty z
  | Str s => s
  | NaN => "nan"
  end.

(** ** Exceptions *)

Inductive exn :=
  | FileNotFoundError
  | ParserError (msg : string)
  | KeyError (key : string)
  | ValueError (msg : string)
  | OSError (msg : string)
  | SMTPAuthenticationError (msg : string)
  | SMTPException (msg : string)
  | KeyboardInterrupt.

(** [isinstance(e, Exception)]: everything but the interpreter-level
    interrupts, which derive from [BaseException] only. *)
Definition is_Exception (e : exn) : bool :=
  match e with
  | KeyboardInterrupt => false
  | _ => true
  end.

(** [str(e)] *)
Definition str_exn (e : exn) : string :=
  match e with
  | FileNotFoundError => "No such file or directory"
  | ParserError m | ValueError m | OSError m
  | SMTPAuthenticationError m | SMTPException m => m
  | KeyError k => "'" +:+ k +:+ "'"
  | KeyboardInterrupt => ""
  end.

(** ** CONFIG *)

Definition SECTORS : list string := ["Retail"; "Hospitality"; "Finance"].
Definition REGIONS : list string :=
  ["Mumbai"; "Delhi"; "Chennai"; "Kolkata"; "Bengaluru"; "Lucknow"].
Definition ALERT_EMAIL : string := "your-alert-email@example.com".

(** The column list of the empty frame in [load_data]; the keys of the
    record built by the submission form are the same, in the same order. *)
Definition STORE_COLUMNS : list string :=
  ["timestamp"; "region"; "sector"; "visitor_count"; "top_items";
   "queue_time"; "payment_modes"; "crowd_index"].

(** The columns the alert text reads from a row. *)
Definition ALERT_COLUMNS : list string :=
  ["region"; "sector"; "crowd_index"; "queue_time"].

(** The columns selected on the alerts page. *)
Definition FEATURES : list string :=
  ["visitor_count"; "queue_time"; "crowd_index"].

(** ** The backing file *)

(** [pulse_data.csv]: absent, present but not readable as a table (reading
    raises [why]), or holding a table. *)
Inductive FileState :=
  | Missing
  | Unreadable (why : exn)
  | Stored (df : DataFrame).

(** [pd.read_csv(DATA_FILE)] *)
Definition read_csv (f : FileState) : exn + DataFrame :=
  match f with
  | Missing => inl FileNotFoundError
  | Unreadable why => inl why
  | Stored df => inr df
  end.

(** ** The notification sink *)

Record email := mkEmail {
  e_subject : string;
  e_from : string;
  e_to : string;
  e_body : string
}.

(** What one pass through the [with smtplib.SMTP_SSL(...)] block does:
    the connection, the login or the send raises, or the message is sent. *)
Inductive smtp_result :=
  | Sent
  | ConnectFailed (why : string)
  | LoginFailed (why : string)
  | SendFailed (why : string).

Definition smtp_exn (r : smtp_result) : option exn :=
  match r with
  | Sent => None
  | ConnectFailed why => Some (OSError why)
  | LoginFailed why => Some (SMTPAuthenticationError why)
  | SendFailed why => Some (SMTPException why)
  end.

(** ** What a run emits *)

Inductive event :=
  | st_title (s : string)
  | st_warning (s : string)
  | st_error (s : string)
  | st_success (s : string)
  | st_markdown (s : string)
  | st_caption (s : string)
  | fit_predict_call (X : list (list cell))
  | smtp_attempt (m : email) (r : smtp_result).

(** ** pandas operations used by the script *)

(** [pd.DataFrame(columns=[...])] *)
Definition empty_frame (cols : list string) : DataFrame := mkFrame cols [].

(** [df[[c1, ..., cn]]]: [KeyError] on the first label that is no column. *)
Definition getitem_columns (df : DataFrame) (cols : list string)
  : exn + DataFrame :=
  match filter (λ c, c ∉ columns df) cols with
  | [] => inr (mkFrame cols (rows df))
  | c :: _ => inl (KeyError c)
  end.

(** The values of a frame as a matrix, one line per row. *)
Definition to_matrix (df : DataFrame) : list (list cell) :=
  (λ r, cell_of r <$> columns df) <$> rows df.

(** [df[name] = values]: the lengths must agree; the column is appended
    when new and overwritten otherwise. *)
Definition setitem_column (df : DataFrame) (name : string) (values : list Z)
  : exn + DataFrame :=
  if bool_decide (length values = len df) then
    inr (mkFrame
           (if bool_decide (name ∈ columns df) then columns df
            else columns df ++ [name])
           (zip_with (λ r v, <[name := Num v]> r) (rows df) values))
  else inl (ValueError "Length of values does not match length of index").

(** [df[df[name] == v]] *)
Definition where_eq (df : DataFrame) (name : string) (v : cell) : DataFrame :=
  mkFrame (columns df) (filter (λ r, cell_of r name = v) (rows df)).

(** [row[c]] for a row produced by [df.iterrows()]. *)
Definition getitem_row (df : DataFrame) (r : row) (c : string) : exn + cell :=
  if bool_decide (c ∈ columns df) then inr (cell_of r c) else inl (KeyError c).

(** [pd.concat([a, b], ignore_index=True)]: the columns of [a], then those
    of [b] that [a] lacks; the rows of [a], then the rows of [b]. *)
Definition concat (a b : DataFrame) : DataFrame :=
  mkFrame (columns a ++ filter (λ c, c ∉ columns a) (columns b))
          (rows a ++ rows b).

(** ** The intake form *)

Record pulse_form := mkForm {
  f_region : string;
  f_sector : string;
  f_visitor_count : Z;
  f_top_items : string;
  f_queue_time : Z;
  f_payment_modes : list string;
  f_crowd_index : Z;
  f_submitted : bool
}.

(** The dictionary of the submitted record; [now] is the reading of
    [datetime.datetime.now()]. *)
Definition entry_of_form (f : pulse_form) (now : string) : row :=
  <["timestamp" := Str now]>
  (<["region" := Str (f_region f)]>
  (<["sector" := Str (f_sector f)]>
  (<["visitor_count" := Num (f_visitor_count f)]>
  (<["top_items" := Str (f_top_items f)]>
  (<["queue_time" := Num (f_queue_time f)]>
  (<["payment_modes" := Str (String.concat "," (f_payment_modes f))]>
  (<["crowd_index" := Num (f_crowd_index f)]> ∅))))))).

(** [pd.DataFrame([{...}])] *)
Definition new_entry (f : pulse_form) (now : string) : DataFrame :=
  mkFrame STORE_COLUMNS [entry_of_form f now].

(** ** Alert texts *)

Definition alert_msg (region sector crowd_index queue_time : cell) : string :=
  "⚠️ Alert: Unusual activity in " +:+ str_cell region +:+ " (" +:+
  str_cell sector +:+ ") — Crowd Index " +:+ str_cell crowd_index +:+
  ", Queue Time " +:+ str_cell queue_time +:+ " mins".

Definition alert_subject (region sector : cell) : string :=
  "Alert: " +:+ str_cell sector +:+ " anomaly in " +:+ str_cell region.

(** The message [send_alert_email] builds from a subject and a body. *)
Definition mime_text (subject body : string) : email :=
  mkEmail subject "your-sender-email@example.com" ALERT_EMAIL body.

(** The alert of one row, read off its cells. *)
Definition row_alert_msg (r : row) : string :=
  alert_msg (cell_of r "region") (cell_of r "sector")
            (cell_of r "crowd_index") (cell_of r "queue_time").

Definition row_alert_email (r : row) : email :=
  mime_text (alert_subject (cell_of r "region") (cell_of r "sector"))
            (row_alert_msg r).

(** The element that reports the outcome of one delivery attempt. *)
Definition delivery_report (res : smtp_result) : event :=
  match smtp_exn res with
  | None => st_success " Alert email sent successfully!"
  | Some e => st_error (" Failed to send alert: " +:+ str_exn e)
  end.

(** What the loop of the alerts page emits for one row whose delivery
    attempt came back with [res]. *)
Definition alert_events (r : row) (res : smtp_result) : list event :=
  [st_error (row_alert_msg r); smtp_attempt (row_alert_email r) res;
   delivery_report res].

(** The e-mails among the events of a run, in order. *)
Definition attempted (evs : list event) : list email :=
  omap (λ ev, match ev with smtp_attempt m _ => Some m | _ => None end) evs.

(** The feature matrices handed to the detector during a run, in order. *)
Definition detector_calls (evs : list event) : list (list (list cell)) :=
  omap (λ ev, match ev with fit_predict_call X => Some X | _ => None end) evs.

(** The number of rows a labelled frame marks as anomalous. *)
Definition anomaly_count (df : DataFrame) : nat :=
  length (filter (λ r, cell_of r "anomaly" = Num (-1)) (rows df)).

(** ** Labels *)

Inductive AnomalyLabel := normal | anomalous.

(** The alerts page treats a row as anomalous exactly when its prediction
    is [-1]. *)
Definition label_of (prediction : Z) : AnomalyLabel :=
  if bool_decide (prediction = (-1)%Z) then anomalous else normal.

(** The label column of a frame, when it has one. *)
Definition labels_of (df : DataFrame) : option (list cell) :=
  if bool_decide ("anomaly" ∈ columns df)
  then Some ((λ r, cell_of r "anomaly") <$> rows df)
  else None.

(** ** Numbers of the feature matrix *)

(** An entry of the matrix the detector works on: a finite number, or the
    float [nan], which stands for a missing value and which the detector
    takes as it is. *)
Inductive number :=
  | Finite (z : Z)
  | NotANumber.

(** ** Outcomes *)

(** A computation returns a value or ends in an uncaught exception. *)
Inductive Outcome (A : Type) :=
  | Ok (a : A)
  | Raised (e : exn).
Arguments Ok {A} a.
Arguments Raised {A} e.

(** ** Environment *)

(** - [Rng], [isolation_forest]: the state of the random generator the forest
      draws from, and the forest itself: contamination, generator state and
      numeric feature matrix to new generator state and one prediction ([1]
      or [-1]) per line.
    - [Sink], [smtp_deliver]: the SMTP relay, and what one delivery attempt
      does to it.
    - [float_of_str]: [float(s)] for a text cell, [None] when the conversion
      raises or gives an infinity. *)
Class Environment := mkEnvironment {
  Rng : Type;
  isolation_forest : Q → Rng → list (list number) → Rng * list Z;
  Sink : Type;
  smtp_deliver : Sink → email → Sink * smtp_result;
  float_of_str : string → option number
}.

Section Pipeline.

Context `{Environment}.

(** ** Process state and the run monad *)

Record World := mkWorld {
  file : FileState;
  cache : option DataFrame;
  rng : Rng;
  sink : Sink
}.

Definition set_file (f : FileState) (w : World) : World :=
  mkWorld f (cache w) (rng w) (sink w).
Definition set_cache (c : option DataFrame) (w : World) : World :=
  mkWorld (file w) c (rng w) (sink w).
Definition set_rng (g : Rng) (w : World) : World :=
  mkWorld (file w) (cache w) g (sink w).
Definition set_sink (s : Sink) (w : World) : World :=
  mkWorld (file w) (cache w) (rng w) s.

Record Run (A : Type) := mkRun {
  outcome : Outcome A;
  world : World;
  events : list event
}.
Arguments mkRun {A} _ _ _.
Arguments outcome {A} _.
Arguments world {A} _.
Arguments events {A} _.

Definition M (A : Type) : Type := World → Run A.

Definition ret {A} (a : A) : M A := λ w, mkRun (Ok a) w [].

Definition raise {A} (e : exn) : M A := λ w, mkRun (Raised e) w [].

Definition bind {A B} (k : A → M B) (m : M A) : M B :=
  λ w,
    let r := m w in
    match outcome r with
    | Ok a =>
        let r' := k a (world r) in
        mkRun (outcome r') (world r') (events r ++ events r')
    | Raised e => mkRun (Raised e) (world r) (events r)
    end.

#[export] Instance M_ret : MRet M := @ret.
#[export] Instance M_bind : MBind M := @bind.

Definition emit (ev : event) : M unit := λ w, mkRun (Ok tt) w [ev].

(** Lift a pandas result into the monad. *)
Definition lift {A} (r : exn + A) : M A :=
  match r with
  | inl e => raise e
  | inr a => ret a
  end.

(** [try: m  except <classes accepted by catches> as e: h e] *)
Definition try_except {A} (m : M A) (catches : exn → bool) (h : exn → M A)
  : M A :=
  λ w,
    let r := m w in
    match outcome r with
    | Ok _ => r
    | Raised e =>
        if catches e then
          let r' := h e (world r) in
          mkRun (outcome r') (world r') (events r ++ events r')
        else r
    end.

(** [for x in xs: body x] *)
Fixpoint for_each {A} (xs : list A) (body : A → M unit) : M unit :=
  match xs with
  | [] => ret tt
  | x :: xs' => body x ;; for_each xs' body
  end.

(** ** DATA INIT *)

(** The body of [load_data]: the bare [except:] accepts every exception. *)
Definition load_data_body : M DataFrame :=
  try_except (λ w, lift (read_csv (file w)) w)
             (λ _, true)
             (λ _, ret (empty_frame STORE_COLUMNS)).

(** [@st.cache_data def load_data()]: the body runs on the first call of
    the process; later calls return a copy of the value it returned. *)
Definition load_data : M DataFrame :=
  λ w,
    match cache w with
    | Some df => mkRun (Ok df) w []
    | None =>
        let r := load_data_body w in
        match outcome r with
        | Ok df => mkRun (Ok df) (set_cache (Some df) (world r)) (events r)
        | Raised e => r
        end
    end.

(** [save_data(df)]. The write is taken to succeed: a [to_csv] that raises
    because the path cannot be written is outside the model. *)
Definition save_data (df : DataFrame) : M unit :=
  λ w, mkRun (Ok tt) (set_file (Stored df) w) [].

(** ** ALERT FUNCTION *)

(** The relay's answers to a sequence of submissions, and its state after
    them. *)
Fixpoint deliveries (s : Sink) (msgs : list email) : Sink * list smtp_result :=
  match msgs with
  | [] => (s, [])
  | m :: msgs' =>
      let '(s1, res) := smtp_deliver s m in
      let '(s2, ress) := deliveries s1 msgs' in
      (s2, res :: ress)
  end.


(** The [with smtplib.SMTP_SSL(...)] block: one delivery attempt, which
    raises when the relay fails. *)
Definition smtp_send (msg : email) : M unit :=
  λ w,
    let '(s, res) := smtp_deliver (sink w) msg in
    mkRun (match smtp_exn res with Some e => Raised e | None => Ok tt end)
          (set_sink s w) [smtp_attempt msg res].

Definition send_alert_email (subject body : string) : M unit :=
  let msg := mime_text subject body in
  try_except
    (smtp_send msg ;; emit (st_success " Alert email sent successfully!"))
    is_Exception
    (λ e, emit (st_error (" Failed to send alert: " +:+ str_exn e))).

(** ** PAGE 1: SUBMISSION FORM *)

Definition submit_page (data : DataFrame) (f : pulse_form) (now : string)
  : M unit :=
  emit (st_title " Submit Daily Pulse Data") ;;
  if f_submitted f then
    let updated_data := concat data (new_entry f now) in
    save_data updated_data ;;
    emit (st_success "✅ Data submitted successfully!")
  else ret tt.

(** ** PAGE 3: ALERTS *)

(** Input validation of [fit_predict]: every cell must convert to a float
    that is not an infinity; a missing value is the float [nan] and
    passes. *)
Definition as_float (v : cell) : option number :=
  match v with
  | Num z => Some (Finite z)
  | Str s => float_of_str s
  | NaN => Some NotANumber
  end.

Definition check_array (X : list (list cell)) : option (list (list number)) :=
  mapM (mapM as_float) X.

(** The frame passes the validation of its three feature columns: every
    feature cell is a number, a missing value, or a text that converts. *)
Definition numeric_features (d : DataFrame) : Prop :=
  Forall (λ r, Forall (λ c, is_Some (as_float (cell_of r c))) FEATURES)
         (rows d).


(** A frame the detector cannot take: a feature column is absent, or some
    row has in a feature cell a text that does not convert to a number. *)
Definition malformed (d : DataFrame) : Prop :=
  ¬ (FEATURES ⊆ columns d)
  ∨ ∃ r c, r ∈ rows d ∧ c ∈ FEATURES ∧ as_float (cell_of r c) = None.

(** The fitted forest's predictions for a validated matrix; the fit draws
    from the process-wide random generator, as no [random_state] is given. *)
Definition forest_predictions (contamination : Q) (Xf : list (list number))
  : M (list Z) :=
  λ w,
    let '(g, y) := isolation_forest contamination (rng w) Xf in
    mkRun (Ok y) (set_rng g w) [].

(** [IsolationForest(contamination=c).fit_predict(features)] *)
Definition fit_predict (contamination : Q) (features : DataFrame)
  : M (list Z) :=
  let X := to_matrix features in
  emit (fit_predict_call X) ;;
  match check_array X with
  | None => raise (ValueError "could not convert input to float")
  | Some Xf => forest_predictions contamination Xf
  end.

(** Lines 123-126: fit, label, select. Returns the labelled [data] and the
    frame [alerts]. *)
Definition detect (data : DataFrame) : M (DataFrame * DataFrame) :=
  features ← lift (getitem_columns data FEATURES);
  predictions ← fit_predict (1 # 10) features;
  data' ← lift (setitem_column data "anomaly" predictions);
  ret (data', where_eq data' "anomaly" (Num (-1))).

(** Lines 129-134: the body of the loop, for one row of [alerts]. *)
Definition alert_row (alerts : DataFrame) (r : row) : M unit :=
  region ← lift (getitem_row alerts r "region");
  sector ← lift (getitem_row alerts r "sector");
  crowd_index ← lift (getitem_row alerts r "crowd_index");
  queue_time ← lift (getitem_row alerts r "queue_time");
  let msg := alert_msg region sector crowd_index queue_time in
  emit (st_error msg) ;;
  send_alert_email (alert_subject region sector) msg.

(** Lines 128-134: the loop over [alerts.iterrows()]. *)
Definition dispatch (alerts : DataFrame) : M unit :=
  for_each (rows alerts) (alert_row alerts).

(** The alerts page; it returns the final value of the global [data]. *)
Definition alerts_page (data : DataFrame) : M DataFrame :=
  emit (st_title " Real-Time Surge & Anomaly Alerts") ;;
  if bool_decide (len data < 10) then
    emit (st_warning "Not enough data for anomaly detection.") ;;
    ret data
  else
    '(data', alerts) ← detect data;
    dispatch alerts ;;
    ret data'.

(** ** FOOTER and the two scripts *)

Definition FOOTER_CAPTION : string :=
  "Built for India’s Smart Governance • Privacy-Safe • Scalable • Open Source".

Definition footer : M unit :=
  emit (st_markdown "---") ;;
  emit (st_caption FOOTER_CAPTION).

(** One run of the script with the "Alerts" page selected. *)
Definition alerts_script : M DataFrame :=
  data ← load_data;
  data' ← alerts_page data;
  footer ;;
  ret data'.

(** One run of the script with the "Submit Pulse" page selected. *)
Definition submit_script (f : pulse_form) (now : string) : M DataFrame :=
  data ← load_data;
  submit_page data f now ;;
  footer ;;
  ret data.

(** [n] successive runs of the alerts script. *)
Fixpoint alerts_runs (n : nat) (w : World) : World :=
  match n with
  | O => w
  | S k => alerts_runs k (world (alerts_script w))
  end.

End Pipeline.

Arguments mkRun {_ A} _ _ _.
Arguments outcome {_ A} _.
Arguments world {_ A} _.
Arguments events {_ A} _.

#[export] Existing Instance M_ret.
#[export] Existing Instance M_bind.

(** ** SIDEBAR: page selection *)

(** The options of the sidebar radio, which returns one of them. *)
Definition PAGES : list string :=
  [" Submit Pulse"; " Sector Dashboard"; " Alerts"; " Citizen View";
   " Export"; " Recent Submissions"].

(** The branches of the [if page == ... elif ...] chain. *)
Inductive branch :=
  | PageSubmit
  | PageDashboard
  | PageAlerts
  | PageCitizen
  | PageExport
  | PageRecent.

(** The chain itself: the first comparison that holds selects the branch;
    when none holds, only the footer follows. *)
Definition route (page : string) : option branch :=
  if bool_decide (page = " Submit Pulse") then Some PageSubmit
  else if bool_decide (page = " Sector Dashboard") then Some PageDashboard
  else if bool_decide (page = " Alerts") then Some PageAlerts
  else if bool_decide (page = " Citizen View") then Some PageCitizen
  else if bool_decide (page = " Export") then Some PageExport
  else if bool_decide (page = "Recent Submissions") then Some PageRecent
  else None.

(** ** Sessions *)

Section Sessions.

Context `{Environment}.

(** What happens to a process: a run with the form submitted or not, a run
    of the alerts page, or a restart of the server, which drops the cache and
    starts with a generator and a relay in some state. *)
Inductive action :=
  | Submit (f : pulse_form) (now : string)
  | ViewAlerts
  | Restart (g : Rng) (s : Sink).

Definition perform (w : World) (a : action) : World :=
  match a with
  | Submit f now => world (submit_script f now w)
  | ViewAlerts => world (alerts_script w)
  | Restart g s => mkWorld (file w) None g s
  end.

Definition session (acts : list action) (w : World) : World :=
  foldl perform w acts.

Definition is_restart (a : action) : bool :=
  match a with Restart _ _ => true | _ => false end.

(** A frame as the script itself builds it: the eight store columns, and
    integer cells in the three feature columns of every row. *)
Definition app_built (df : DataFrame) : Prop :=
  columns df = STORE_COLUMNS
  ∧ Forall (λ r, Forall (λ c, ∃ z, cell_of r c = Num z) FEATURES) (rows df).

(** A process whose file and cache, when they hold a frame, hold one the
    script built. *)
Definition app_state (w : World) : Prop :=
  (∀ df, file w = Stored df → app_built df)
  ∧ (∀ df, cache w = Some df → app_built df).

End Sessions.

(** ** Read-only pages *)

(** What a read-only page puts on the screen. *)
Inductive widget :=
  | w_title (s : string)
  | w_info (s : string)
  | w_metric (label : string) (value : cell)
  | w_write (s : string)
  | w_dataframe (df : DataFrame).

(** Rendering a read-only page: the elements shown so far, and a value or
    the exception that ended the rendering. *)
Record Rendered (A : Type) := mkRendered {
  shown : list widget;
  result : Outcome A
}.
Arguments mkRendered {A} _ _.
Arguments shown {A} _.
Arguments result {A} _.

Definition v_ret {A} (a : A) : Rendered A := mkRendered [] (Ok a).

Definition v_bind {A B} (k : A → Rendered B) (m : Rendered A) : Rendered B :=
  match result m with
  | Ok a => mkRendered (shown m ++ shown (k a)) (result (k a))
  | Raised e => mkRendered (shown m) (Raised e)
  end.

#[export] Instance Rendered_ret : MRet Rendered := @v_ret.
#[export] Instance Rendered_bind : MBind Rendered := @v_bind.

Definition show (x : widget) : Rendered unit := mkRendered [x] (Ok tt).

Definition v_lift {A} (r : exn + A) : Rendered A :=
  match r with
  | inl e => mkRendered [] (Raised e)
  | inr a => mkRendered [] (Ok a)
  end.

(** [df[c]]: the cells of one column. *)
Definition getitem_column (df : DataFrame) (c : string) : exn + list cell :=
  if bool_decide (c ∈ columns df)
  then inr ((λ r, cell_of r c) <$> rows df)
  else inl (KeyError c).

(** [column == v], cell by cell. *)
Definition eq_mask (column : list cell) (v : cell) : list bool :=
  (λ x, bool_decide (x = v)) <$> column.

(** [mask1 & mask2] *)
Definition and_mask (m1 m2 : list bool) : list bool := zip_with andb m1 m2.

(** [df[mask]]: the rows whose mask entry is [True]. *)
Definition getitem_mask (df : DataFrame) (mask : list bool) : DataFrame :=
  mkFrame (columns df) ((filter (λ p, p.2 = true) (zip (rows df) mask)).*1).

(** [df.head(n)] *)
Definition head_rows (n : nat) (df : DataFrame) : DataFrame :=
  mkFrame (columns df) (take n (rows df)).

(** [df.empty]: no row or no column. *)
Definition is_empty (df : DataFrame) : bool :=
  bool_decide (rows df = [] ∨ columns df = []).

(** [df.sort_values(by, ascending=...)], a parameter like the forest. *)
Class Sorting := sort_values : string → bool → DataFrame → exn + DataFrame.

(** Row [r1] is not earlier than row [r2] by the text in column [c]; texts
    compare as Python strings do, character by character. *)
Definition not_earlier (c : string) (r1 r2 : row) : Prop :=
  ∀ s1 s2, cell_of r1 c = Str s1 → cell_of r2 c = Str s2 →
           String.leb s2 s1 = true.

(** What pandas documents of a descending sort on a column of texts: it
    returns the same columns and a permutation of the rows, latest text
    first. *)
Definition sorts_descending `{Sorting} : Prop :=
  ∀ c df,
    c ∈ columns df →
    Forall (λ r, ∃ s, cell_of r c = Str s) (rows df) →
    ∃ df', sort_values c false df = inr df'
           ∧ columns df' = columns df
           ∧ rows df' ≡ₚ rows df
           ∧ StronglySorted (not_earlier c) (rows df').

Section Pages.

Context `{Sorting}.

(** PAGE 4: CITIZEN VIEW, for the region and sector chosen in the two
    select boxes. *)
Definition citizen_view (data : DataFrame) (region sector : string)
  : Rendered unit :=
  show (w_title " Citizen Pulse — Check Crowd Levels") ;;
  regions ← v_lift (getitem_column data "region");
  sectors ← v_lift (getitem_column data "sector");
  let mask :=
    and_mask (eq_mask regions (Str region)) (eq_mask sectors (Str sector)) in
  sorted ← v_lift (sort_values "timestamp" false (getitem_mask data mask));
  let latest := head_rows 1 sorted in
  if is_empty latest then
    show (w_info "No recent data available for your selection.")
  else
    match rows latest with
    | [] => mret tt (* excluded by [latest.empty] *)
    | r :: _ =>
        crowd_index ← v_lift (getitem_row latest r "crowd_index");
        show (w_metric "Crowd Index" crowd_index) ;;
        queue_time ← v_lift (getitem_row latest r "queue_time");
        show (w_metric "Queue Time" (Str (str_cell queue_time +:+ " mins"))) ;;
        top_items ← v_lift (getitem_row latest r "top_items");
        show (w_write ("Top Requests: " +:+ str_cell top_items)) ;;
        payment_modes ← v_lift (getitem_row latest r "payment_modes");
        show (w_write ("Payment Modes: " +:+ str_cell payment_modes))
    end.

(** PAGE 6: RECENT SUBMISSIONS *)
Definition recent_submissions (data : DataFrame) : Rendered unit :=
  show (w_title "Recent Pulse Submissions") ;;
  sorted ← v_lift (sort_values "timestamp" false data);
  show (w_dataframe (head_rows 20 sorted)).

End Pages.

(** ** Sample environments and stores *)

(** A stand-in forest for the examples: it flags the lines whose last
    feature (the crowd index) is at least 9, and steps the generator. *)
Definition crowd_forest (c : Q) (g : nat) (X : list (list number))
  : nat * list Z :=
  (S g, (λ x, match List.last x NotANumber with
              | Finite z => if bool_decide (9 ≤ z)%Z then (-1)%Z else 1%Z
              | NotANumber => 1%Z
              end) <$> X).

(** Relays for the examples: one that accepts everything, one that refuses
    every login, and one whose second delivery (and only that one) fails. *)
Definition relay_ok (s : nat) (m : email) : nat * smtp_result := (S s, Sent).
Definition relay_down (s : nat) (m : email) : nat * smtp_result :=
  (S s, LoginFailed "Username and Password not accepted").
Definition relay_second_fails (s : nat) (m : email) : nat * smtp_result :=
  (S s, if bool_decide (s = 1) then SendFailed "Recipient refused" else Sent).

(** A text cell converts only when it is the text ["0"]. *)
Definition float_of_zero (s : string) : option number :=
  if bool_decide (s = "0") then Some (Finite 0) else None.

Definition env_ok : Environment :=
  mkEnvironment nat crowd_forest nat relay_ok float_of_zero.
Definition env_down : Environment :=
  mkEnvironment nat crowd_forest nat relay_down float_of_zero.
Definition env_second_fails : Environment :=
  mkEnvironment nat crowd_forest nat relay_second_fails float_of_zero.

Definition sample_row (region sector : string) (visitors queue crowd : cell)
  : row :=
  <["timestamp" := Str "2025-09-01 10:00:00"]>
  (<["region" := Str region]>
  (<["sector" := Str sector]>
  (<["visitor_count" := visitors]>
  (<["top_items" := Str "tea"]>
  (<["queue_time" := queue]>
  (<["payment_modes" := Str "Cash,UPI"]>
  (<["crowd_index" := crowd]> ∅))))))).

Definition calm_row : row :=
  sample_row "Delhi" "Retail" (Num 40) (Num 7) (Num 3).
Definition surge_row (region : string) : row :=
  sample_row region "Hospitality" (Num 900) (Num 90) (Num 10).

(** Nine calm rows; nine calm rows and one surge; seven calm rows and three
    surges; nine calm rows and one with a garbled crowd index. *)
Definition store9 : DataFrame := mkFrame STORE_COLUMNS (replicate 9 calm_row).
Definition store10 : DataFrame :=
  mkFrame STORE_COLUMNS (replicate 9 calm_row ++ [surge_row "Mumbai"]).
Definition store3surges : DataFrame :=
  mkFrame STORE_COLUMNS
    (surge_row "Mumbai" :: replicate 4 calm_row ++
     surge_row "Kolkata" :: replicate 3 calm_row ++ [surge_row "Lucknow"]).

Definition sample_form : pulse_form :=
  mkForm "Mumbai" "Retail" 120 "samosa" 12 ["Cash"; "UPI"] 6 true.

(** A freshly started process over a given file. *)
Definition fresh `{Environment} (f : FileState) (g : Rng) (s : Sink) : World :=
  mkWorld f None g s.


(** Nine calm rows and one whose crowd index is missing. *)
Definition store_missing_value : DataFrame :=
  mkFrame STORE_COLUMNS
    (replicate 9 calm_row
     ++ [sample_row "Chennai" "Finance" (Num 40) (Num 7) NaN]).

Definition three_surges : DataFrame :=
  mkFrame STORE_COLUMNS
          [surge_row "Mumbai"; surge_row "Kolkata"; surge_row "Lucknow"].

Definition second_form : pulse_form :=
  mkForm "Delhi" "Finance" 30 "loans" 4 ["Card"] 2 true.

(** A sorter for the examples: it pairs every row with the text of the
    sort column, merge-sorts the pairs by that text and drops the texts
    again; it refuses columns that hold anything but texts. *)
Definition text_key (c : string) (r : row) : option (string * row) :=
  match cell_of r c with
  | Str s => Some (s, r)
  | _ => None
  end.

Definition key_order (ascending : bool) (p q : string * row) : Prop :=
  if ascending then String.leb p.1 q.1 = true else String.leb q.1 p.1 = true.

#[global] Instance key_order_dec (ascending : bool) :
  RelDecision (key_order ascending).
Proof. intros p q. unfold key_order. destruct ascending; apply _. Defined.

Definition text_sorter : Sorting :=
  λ c ascending df,
    if bool_decide (c ∈ columns df) then
      match mapM (text_key c) (rows df) with
      | Some keyed =>
          inr (mkFrame (columns df)
                       ((merge_sort (key_order ascending) keyed).*2))
      | None => inl (ValueError "values of the sort column do not compare")
      end
    else inl (KeyError c).

Definition dated_row (region sector stamp : string) (crowd : Z) : row :=
  <["timestamp" := Str stamp]>
  (<["region" := Str region]>
  (<["sector" := Str sector]>
  (<["visitor_count" := Num 50]>
  (<["top_items" := Str "chai"]>
  (<["queue_time" := Num 5]>
  (<["payment_modes" := Str "UPI"]>
  (<["crowd_index" := Num crowd]> ∅))))))).

(** Three records of Mumbai retail at three times, and one of Delhi. *)
Definition store_dated : DataFrame :=
  mkFrame STORE_COLUMNS
    [dated_row "Mumbai" "Retail" "2025-09-01 09:00:00" 2;
     dated_row "Mumbai" "Retail" "2025-09-01 18:30:00" 8;
     dated_row "Delhi" "Retail" "2025-09-02 08:00:00" 4;
     dated_row "Mumbai" "Retail" "2025-09-01 12:15:00" 5].

(** A forest that returns no prediction at all, against the contract. *)
Definition silent_forest (c : Q) (g : nat) (X : list (list number))
  : nat * list Z :=
  (g, []).

Definition env_silent_forest : Environment :=
  mkEnvironment nat silent_forest nat relay_ok float_of_zero.

(** One surge under two columns only. *)
Definition alerts_without_indices : DataFrame :=
  mkFrame ["region"; "sector"] [surge_row "Mumbai"].

(** Fresh processes over the sample stores, with a relay that works. *)
Definition world_of (df : DataFrame) : @World env_ok :=
  @fresh env_ok (Stored df) 0 0.
Definition world_without_file : @World env_ok := @fresh env_ok Missing 0 0.

(** A process that loaded [store10] before its file went away, and whose
    relay has already handled five messages. *)
Definition world_cached_store10 : @World env_ok :=
  @mkWorld env_ok Missing (Some store10) 0 5.

(** Two sessions of one process over a working relay: one without a
    restart, one with a restart in the middle. *)
Definition session_without_restart : list (@action env_ok) :=
  [@Submit env_ok sample_form "10:05"; @ViewAlerts env_ok;
   @Submit env_ok second_form "10:06"].
Definition session_with_restart : list (@action env_ok) :=
  [@Submit env_ok sample_form "10:05"; @Restart env_ok 7 0;
   @Submit env_ok second_form "10:06"; @ViewAlerts env_ok].

(** * Properties *)

Section Properties.

Context `{Environment}.

(** ** Running the monad *)

Lemma bind_run {A B} (k : A → M B) (m : M A) (w : World) :
  (m ≫= k) w =
  match outcome (m w) with
  | Ok a =>
      mkRun (outcome (k a (world (m w)))) (world (k a (world (m w))))
            (events (m w) ++ events (k a (world (m w))))
  | Raised e => mkRun (Raised e) (world (m w)) (events (m w))
  end.
Proof. reflexivity. Qed.

Lemma run_eta {A} (r : Run A) : mkRun (outcome r) (world r) (events r) = r.
Proof. by destruct r. Qed.

Lemma world_eta (w : World) : mkWorld (file w) (cache w) (rng w) (sink w) = w.
Proof. by destruct w. Qed.

(** ** The store read *)

Lemma load_data_body_run (w : World) :
  load_data_body w =
  mkRun (Ok (match read_csv (file w) with
             | inr df => df
             | inl _ => empty_frame STORE_COLUMNS
             end)) w [].
Proof.
  unfold load_data_body, try_except, lift.
  by destruct (read_csv (file w)).
Qed.

Lemma load_data_run (w : World) :
  ∃ d, load_data w = mkRun (Ok d) (set_cache (Some d) w) [].
Proof.
  unfold load_data. destruct (cache w) as [df|] eqn:Hc.
  - exists df. unfold set_cache. rewrite <- Hc. by rewrite world_eta.
  - rewrite load_data_body_run. simpl. eauto.
Qed.

(** ** The alert function and the dispatch loop *)

Lemma send_alert_email_run (subject body : string) (w : World) :
  send_alert_email subject body w =
  let sr := smtp_deliver (sink w) (mime_text subject body) in
  mkRun (Ok tt) (set_sink sr.1 w)
        [smtp_attempt (mime_text subject body) sr.2; delivery_report sr.2].
Proof.
  unfold send_alert_email, try_except. rewrite bind_run.
  unfold smtp_send, delivery_report. simpl.
  destruct (smtp_deliver (sink w) (mime_text subject body)) as [s res].
  by destruct res.
Qed.

Lemma getitem_row_in (df : DataFrame) (r : row) (c : string) :
  c ∈ columns df → getitem_row df r c = inr (cell_of r c).
Proof. intros Hc. unfold getitem_row. by rewrite bool_decide_eq_true_2. Qed.

Lemma alert_row_run (alerts : DataFrame) (r : row) (w : World) :
  ALERT_COLUMNS ⊆ columns alerts →
  alert_row alerts r w =
  let sr := smtp_deliver (sink w) (row_alert_email r) in
  mkRun (Ok tt) (set_sink sr.1 w) (alert_events r sr.2).
Proof.
  intros Hcols. unfold alert_row.
  rewrite !getitem_row_in by (apply Hcols; set_solver).
  rewrite !bind_run. simpl. rewrite send_alert_email_run. done.
Qed.

Lemma for_each_alert_rows (alerts : DataFrame) (rs : list row) (w : World) :
  ALERT_COLUMNS ⊆ columns alerts →
  for_each rs (alert_row alerts) w =
  let d := deliveries (sink w) (row_alert_email <$> rs) in
  mkRun (Ok tt) (set_sink d.1 w) (mjoin (zip_with alert_events rs d.2)).
Proof.
  intros Hcols. revert w. induction rs as [|r rs IH]; intros w.
  - simpl. unfold ret, set_sink. by rewrite world_eta.
  - cbn [for_each]. rewrite bind_run, alert_row_run by done.
    cbn [outcome world events]. rewrite IH.
    cbn [fmap list_fmap deliveries sink set_sink].
    destruct (smtp_deliver (sink w) (row_alert_email r)) as [s1 res].
    cbn [fst snd].
    destruct (deliveries s1 (row_alert_email <$> rs)) as [s2 ress].
    done.
Qed.

Lemma deliveries_length (s : Sink) (msgs : list email) :
  length (deliveries s msgs).2 = length msgs.
Proof.
  revert s. induction msgs as [|m msgs IH]; intros s; [done|].
  simpl. destruct (smtp_deliver s m) as [s1 res].
  specialize (IH s1). destruct (deliveries s1 msgs) as [s2 ress].
  simpl in *. by rewrite IH.
Qed.

Lemma deliveries_length_fmap {A} (s : Sink) (f : A → email) (xs : list A) :
  length (deliveries s (f <$> xs)).2 = length xs.
Proof. by rewrite deliveries_length, length_fmap. Qed.

Lemma attempted_alert_events (rs : list row) (ress : list smtp_result) :
  length ress = length rs →
  attempted (mjoin (zip_with alert_events rs ress)) = row_alert_email <$> rs.
Proof.
  revert ress. induction rs as [|r rs IH]; intros [|res ress] Hlen;
    simplify_eq/=; try done.
  unfold attempted in *. simpl. rewrite IH by done.
  unfold delivery_report. by destruct (smtp_exn res).
Qed.

Lemma attempted_app (l1 l2 : list event) :
  attempted (l1 ++ l2) = attempted l1 ++ attempted l2.
Proof. apply omap_app. Qed.

Lemma detector_calls_app (l1 l2 : list event) :
  detector_calls (l1 ++ l2) = detector_calls l1 ++ detector_calls l2.
Proof. apply omap_app. Qed.

(** ** Runs that leave the backing file alone *)

Definition keeps_file {A} (m : M A) : Prop :=
  ∀ w, file (world (m w)) = file w.

Lemma keeps_file_ret {A} (a : A) : keeps_file (ret a).
Proof. done. Qed.

Lemma keeps_file_raise {A} (e : exn) : keeps_file (raise (A:=A) e).
Proof. done. Qed.

Lemma keeps_file_emit (ev : event) : keeps_file (emit ev).
Proof. done. Qed.

Lemma keeps_file_lift {A} (r : exn + A) : keeps_file (lift r).
Proof. by destruct r. Qed.

Lemma keeps_file_bind {A B} (m : M A) (k : A → M B) :
  keeps_file m → (∀ a, keeps_file (k a)) → keeps_file (m ≫= k).
Proof.
  intros Hm Hk w. rewrite bind_run.
  destruct (outcome (m w)); simpl; [rewrite Hk|]; apply Hm.
Qed.

Lemma keeps_file_try_except {A} (m : M A) (c : exn → bool) (h : exn → M A) :
  keeps_file m → (∀ e, keeps_file (h e)) → keeps_file (try_except m c h).
Proof.
  intros Hm Hh w. unfold try_except.
  destruct (outcome (m w)) as [a|e]; [apply Hm|].
  destruct (c e); simpl; [rewrite Hh|]; apply Hm.
Qed.

Lemma keeps_file_for_each {A} (xs : list A) (body : A → M unit) :
  (∀ x, keeps_file (body x)) → keeps_file (for_each xs body).
Proof.
  intros Hb. induction xs as [|x xs IH]; [done|].
  by apply keeps_file_bind.
Qed.

Lemma keeps_file_smtp_send (msg : email) : keeps_file (smtp_send msg).
Proof. intros w. unfold smtp_send. by destruct (smtp_deliver _ _). Qed.

Lemma keeps_file_forest_predictions (c : Q) (Xf : list (list number)) :
  keeps_file (forest_predictions c Xf).
Proof. intros w. unfold forest_predictions. by destruct (isolation_forest _ _ _). Qed.

Lemma keeps_file_load_data : keeps_file load_data.
Proof. intros w. destruct (load_data_run w) as [d ->]. done. Qed.

Create HintDb keeps_file.
#[local] Hint Resolve keeps_file_ret keeps_file_raise keeps_file_emit
  keeps_file_lift keeps_file_bind keeps_file_try_except keeps_file_for_each
  keeps_file_smtp_send keeps_file_forest_predictions keeps_file_load_data
  : keeps_file.

Lemma keeps_file_send_alert_email (subject body : string) :
  keeps_file (send_alert_email subject body).
Proof. unfold send_alert_email. auto with keeps_file. Qed.

Lemma keeps_file_dispatch (alerts : DataFrame) : keeps_file (dispatch alerts).
Proof.
  unfold dispatch, alert_row.
  auto 12 using keeps_file_send_alert_email with keeps_file.
Qed.

Lemma keeps_file_detect (data : DataFrame) : keeps_file (detect data).
Proof.
  unfold detect, fit_predict.
  repeat (apply keeps_file_bind; [auto with keeps_file|intros ?]).
  - destruct (check_array _); auto with keeps_file.
  - auto with keeps_file.
Qed.

Lemma keeps_file_alerts_script : keeps_file alerts_script.
Proof.
  unfold alerts_script, alerts_page, footer.
  apply keeps_file_bind; [auto with keeps_file|intros data].
  apply keeps_file_bind; [|intros; auto with keeps_file].
  apply keeps_file_bind; [auto with keeps_file|intros _].
  case_bool_decide; [auto with keeps_file|].
  apply keeps_file_bind; [apply keeps_file_detect|intros [d' alerts]].
  apply keeps_file_bind; [apply keeps_file_dispatch|auto with keeps_file].
Qed.

(** ** The alerts script below the threshold *)

Lemma alerts_script_short (w : World) (d : DataFrame) :
  outcome (load_data w) = Ok d → len d < 10 →
  alerts_script w =
  mkRun (Ok d) (set_cache (Some d) w)
        [st_title " Real-Time Surge & Anomaly Alerts";
         st_warning "Not enough data for anomaly detection.";
         st_markdown "---"; st_caption FOOTER_CAPTION].
Proof.
  intros Hload Hlen. destruct (load_data_run w) as [d' Hd'].
  rewrite Hd' in Hload. simplify_eq/=.
  unfold alerts_script, alerts_page. rewrite bind_run, Hd'. simpl.
  rewrite !bind_run. simpl.
  rewrite bool_decide_eq_true_2 by done. done.
Qed.

(** ** Detection *)

Lemma getitem_columns_present (df : DataFrame) (cols : list string) :
  cols ⊆ columns df → getitem_columns df cols = inr (mkFrame cols (rows df)).
Proof.
  intros Hsub. unfold getitem_columns.
  destruct (filter _ cols) as [|c cs] eqn:Hf; [done|].
  assert (c ∈ filter (λ c, c ∉ columns df) cols) as Hc
    by (rewrite Hf; left).
  apply list_elem_of_filter in Hc as [Hc1 Hc2]. destruct Hc1. by apply Hsub.
Qed.


Lemma to_matrix_length (cols : list string) (rs : list row) :
  length (to_matrix (mkFrame cols rs)) = length rs.
Proof. unfold to_matrix. simpl. by rewrite length_fmap. Qed.

Lemma row_cells_convert (r : row) (cols : list string) :
  Forall (λ c, is_Some (as_float (cell_of r c))) cols →
  is_Some (mapM as_float (cell_of r <$> cols)).
Proof. intros Hr. apply mapM_is_Some_2. by apply Forall_fmap. Qed.

Lemma check_array_numeric (d : DataFrame) :
  numeric_features d →
  ∃ Xf, check_array (to_matrix (mkFrame FEATURES (rows d))) = Some Xf
        ∧ length Xf = len d.
Proof.
  intros Hnum.
  assert (is_Some (check_array (to_matrix (mkFrame FEATURES (rows d)))))
    as [Xf HXf].
  { apply mapM_is_Some_2. unfold to_matrix. cbn [rows columns].
    apply Forall_fmap. eapply Forall_impl; [exact Hnum|]. intros r Hr.
    by apply row_cells_convert. }
  exists Xf. split; [done|].
  apply mapM_Some_1, Forall2_length in HXf.
  by rewrite to_matrix_length in HXf.
Qed.


Lemma setitem_column_same_length (df : DataFrame) (name : string)
    (values : list Z) :
  length values = len df →
  setitem_column df name values =
  inr (mkFrame
         (if bool_decide (name ∈ columns df) then columns df
          else columns df ++ [name])
         (zip_with (λ r v, <[name := Num v]> r) (rows df) values)).
Proof. intros Hlen. unfold setitem_column. by rewrite bool_decide_eq_true_2. Qed.


Lemma FEATURES_stored : FEATURES ⊆ STORE_COLUMNS.
Proof. by apply (bool_decide_unpack _). Qed.

Lemma ALERT_COLUMNS_stored : ALERT_COLUMNS ⊆ STORE_COLUMNS.
Proof. by apply (bool_decide_unpack _). Qed.

Lemma setitem_column_columns (df df' : DataFrame) (name : string)
    (values : list Z) :
  setitem_column df name values = inr df' → columns df ⊆ columns df'.
Proof.
  unfold setitem_column. case_bool_decide; [|done].
  intros [= <-]. simpl. case_bool_decide; set_solver.
Qed.

(** ** The alerts script at or above the threshold *)


Lemma detector_calls_alert_events (rs : list row) (ress : list smtp_result) :
  detector_calls (mjoin (zip_with alert_events rs ress)) = [].
Proof.
  revert ress. induction rs as [|r rs IH]; intros [|res ress]; try done.
  unfold detector_calls in *. simpl. rewrite IH.
  unfold delivery_report. by destruct (smtp_exn res).
Qed.

Lemma anomaly_column_read (rs : list row) (vs : list Z) :
  length vs = length rs →
  (λ r, cell_of r "anomaly") <$> zip_with (λ r v, <["anomaly" := Num v]> r) rs vs
  = Num <$> vs.
Proof.
  revert vs. induction rs as [|r rs IH]; intros [|v vs] Hlen;
    simplify_eq/=; try done.
  rewrite IH by done. unfold cell_of. by rewrite lookup_insert_eq.
Qed.

Lemma anomaly_filter_length (rs : list row) (vs : list Z) :
  length vs = length rs →
  length (filter (λ r, cell_of r "anomaly" = Num (-1))
            (zip_with (λ r v, <["anomaly" := Num v]> r) rs vs))
  = length (filter (λ v, v = (-1)%Z) vs).
Proof.
  revert vs. induction rs as [|r rs IH]; intros [|v vs] Hlen;
    simplify_eq/=; try done.
  assert (cell_of (<["anomaly" := Num v]> r) "anomaly" = Num v) as Hcell
    by (unfold cell_of; by rewrite lookup_insert_eq).
  destruct (decide (v = (-1)%Z)) as [->|Hv].
  - rewrite !filter_cons_True by done. simpl. by rewrite IH.
  - rewrite !filter_cons_False; [by apply IH|done|].
    rewrite Hcell. congruence.
Qed.

(** ** Runs determined by the generator state *)

(** Two runs agree when they end the same way, leave the generator in the
    same state, call the detector on the same matrices and attempt the same
    e-mails. *)
Definition agree {A} (r1 r2 : Run A) : Prop :=
  outcome r1 = outcome r2
  ∧ rng (world r1) = rng (world r2)
  ∧ detector_calls (events r1) = detector_calls (events r2)
  ∧ attempted (events r1) = attempted (events r2).

Definition seed_determined {A} (m : M A) : Prop :=
  ∀ w1 w2, rng w1 = rng w2 → agree (m w1) (m w2).

Lemma seed_determined_ret {A} (a : A) : seed_determined (ret a).
Proof. by intros w1 w2 Hg. Qed.

Lemma seed_determined_raise {A} (e : exn) : seed_determined (raise (A:=A) e).
Proof. by intros w1 w2 Hg. Qed.

Lemma seed_determined_emit (ev : event) : seed_determined (emit ev).
Proof. by intros w1 w2 Hg. Qed.

Lemma seed_determined_lift {A} (r : exn + A) : seed_determined (lift r).
Proof. by destruct r. Qed.

Lemma seed_determined_bind {A B} (m : M A) (k : A → M B) :
  seed_determined m → (∀ a, seed_determined (k a)) →
  seed_determined (m ≫= k).
Proof.
  intros Hm Hk w1 w2 Hg. rewrite !bind_run.
  destruct (Hm w1 w2 Hg) as (Ho & Hg' & Hd & Ha). rewrite <- Ho.
  destruct (outcome (m w1)) as [a|e]; [|done].
  destruct (Hk a _ _ Hg') as (Ho2 & Hg2 & Hd2 & Ha2).
  unfold agree. cbn [outcome world events].
  rewrite !detector_calls_app, !attempted_app. by split_and!; congruence.
Qed.

Lemma seed_determined_for_each {A} (xs : list A) (body : A → M unit) :
  (∀ x, seed_determined (body x)) → seed_determined (for_each xs body).
Proof.
  intros Hb. induction xs as [|x xs IH]; [apply seed_determined_ret|].
  by apply seed_determined_bind.
Qed.

Lemma seed_determined_send_alert_email (subject body : string) :
  seed_determined (send_alert_email subject body).
Proof.
  intros w1 w2 Hg. rewrite !send_alert_email_run.
  unfold agree, attempted, detector_calls, delivery_report. simpl.
  by destruct (smtp_exn _), (smtp_exn _).
Qed.

Lemma seed_determined_forest_predictions (c : Q) (Xf : list (list number)) :
  seed_determined (forest_predictions c Xf).
Proof.
  intros w1 w2 Hg. unfold forest_predictions. rewrite Hg.
  by destruct (isolation_forest _ _ _).
Qed.

Create HintDb seed_determined.
#[local] Hint Resolve seed_determined_ret seed_determined_raise
  seed_determined_emit seed_determined_lift seed_determined_bind
  seed_determined_for_each seed_determined_send_alert_email
  seed_determined_forest_predictions : seed_determined.

Lemma seed_determined_dispatch (alerts : DataFrame) :
  seed_determined (dispatch alerts).
Proof. unfold dispatch, alert_row. auto 12 with seed_determined. Qed.

Lemma seed_determined_detect (data : DataFrame) : seed_determined (detect data).
Proof.
  unfold detect, fit_predict.
  repeat (apply seed_determined_bind; [auto with seed_determined|intros ?]).
  - destruct (check_array _); auto with seed_determined.
  - auto with seed_determined.
Qed.

Lemma seed_determined_alerts_page (data : DataFrame) :
  seed_determined (alerts_page data).
Proof.
  unfold alerts_page.
  apply seed_determined_bind; [auto with seed_determined|intros _].
  case_bool_decide; [auto with seed_determined|].
  apply seed_determined_bind; [apply seed_determined_detect|].
  intros [d' alerts].
  apply seed_determined_bind; [apply seed_determined_dispatch|].
  auto with seed_determined.
Qed.

(** The labels depend on the frame through its feature matrix only: two
    frames with the same feature matrix, detected from the same generator
    state, get the same label column, or raise the same exception. *)
Lemma detect_depends_on_features (d1 d2 : DataFrame) (w1 w2 : World) :
  FEATURES ⊆ columns d1 → FEATURES ⊆ columns d2 →
  to_matrix (mkFrame FEATURES (rows d1)) = to_matrix (mkFrame FEATURES (rows d2)) →
  rng w1 = rng w2 →
  match outcome (detect d1 w1), outcome (detect d2 w2) with
  | Ok (d1', _), Ok (d2', _) =>
      labels_of d1' = labels_of d2' ∧ anomaly_count d1' = anomaly_count d2'
  | Raised e1, Raised e2 => e1 = e2
  | _, _ => False
  end.
Proof.
  intros Hc1 Hc2 HX Hg.
  assert (len d1 = len d2) as Hlen.
  { unfold len. by rewrite <- (to_matrix_length FEATURES (rows d1)), HX,
      to_matrix_length. }
  unfold detect, fit_predict.
  rewrite !getitem_columns_present by done. rewrite !bind_run. simpl.
  rewrite <- HX.
  destruct (check_array _) as [Xf|]; [|done].
  rewrite !bind_run. simpl. unfold forest_predictions. rewrite <- Hg.
  destruct (isolation_forest _ _ _) as [g y]. simpl.
  unfold setitem_column. rewrite <- Hlen.
  case_bool_decide as Hy; [|done]. simpl.
  unfold labels_of, anomaly_count. cbn [rows columns].
  rewrite !bool_decide_eq_true_2 by (case_bool_decide; set_solver).
  unfold len in *. rewrite !anomaly_column_read by congruence.
  split; [done|].
  rewrite !anomaly_filter_length by congruence. done.
Qed.

(** ** Claims *)

(** C1. Below ten observations a detection run ends in the insufficient-data
    state: the run returns normally with the loaded frame as it was, its
    output is the title, the warning "Not enough data for anomaly detection."
    and the footer, the detector is never called and no e-mail is attempted. *)
Theorem insufficient_data_is_terminal (w : World) (d : DataFrame) :
  outcome (load_data w) = Ok d → len d < 10 →
  outcome (alerts_script w) = Ok d
  ∧ events (alerts_script w) =
      [st_title " Real-Time Surge & Anomaly Alerts";
       st_warning "Not enough data for anomaly detection.";
       st_markdown "---"; st_caption FOOTER_CAPTION]
  ∧ detector_calls (events (alerts_script w)) = []
  ∧ attempted (events (alerts_script w)) = [].
Proof.
  intros Hload Hlen. rewrite (alerts_script_short w d Hload Hlen). done.
Qed.


(** C4. The dispatch loop gives every row of [alerts] its own delivery
    attempt, in order, whatever the relay answers: the loop returns normally,
    the e-mails attempted are those of all the rows, and what it emits is,
    row after row, the alert text, the attempt with the relay's answer to it,
    and the success or failure report of that attempt. *)
Theorem dispatch_isolates_failures (alerts : DataFrame) (w : World) :
  ALERT_COLUMNS ⊆ columns alerts →
  let answers :=
    (deliveries (sink w) (row_alert_email <$> rows alerts)).2 in
  outcome (dispatch alerts w) = Ok tt
  ∧ attempted (events (dispatch alerts w)) = row_alert_email <$> rows alerts
  ∧ length answers = length (rows alerts)
  ∧ events (dispatch alerts w) =
      mjoin (zip_with alert_events (rows alerts) answers).
Proof.
  intros Hcols answers. unfold dispatch.
  rewrite for_each_alert_rows by done. cbn [outcome events].
  assert (length answers = length (rows alerts)) as Hlen
    by apply deliveries_length_fmap.
  split_and!; [done| |done..]. by apply attempted_alert_events.
Qed.

(** C5. Any number of detection runs leaves the backing file as it was,
    whether the runs return or raise. *)
Theorem detection_never_writes_store (n : nat) (w : World) :
  file (alerts_runs n w) = file w ∧ file (world (alerts_script w)) = file w.
Proof.
  split; [|apply keeps_file_alerts_script].
  revert w. induction n as [|n IH]; intros w; [done|].
  simpl. rewrite IH. apply keeps_file_alerts_script.
Qed.

(** C6. When reading the file raises, the body of [load_data] returns the
    frame with the eight store columns and no rows, and so does the first
    [load_data] of a process, which also caches it; nothing is raised. *)
Theorem load_data_unreadable_is_empty (w : World) (e : exn) :
  read_csv (file w) = inl e →
  load_data_body w = mkRun (Ok (mkFrame STORE_COLUMNS [])) w []
  ∧ (cache w = None →
     load_data w =
     mkRun (Ok (mkFrame STORE_COLUMNS []))
           (set_cache (Some (mkFrame STORE_COLUMNS [])) w) [])
  ∧ length STORE_COLUMNS = 8%nat.
Proof.
  intros Hread.
  assert (load_data_body w = mkRun (Ok (mkFrame STORE_COLUMNS [])) w [])
    as Hbody by (by rewrite load_data_body_run, Hread).
  split_and!; [done| |done].
  intros Hcache. unfold load_data. by rewrite Hcache, Hbody.
Qed.

(** C7 (amended). A file that cannot be read never makes a run fail:
    [load_data] returns a frame and raises nothing. In a process that has not
    loaded the store yet the frame is the empty one, and the detection run
    ends in the insufficient-data state, with the warning as its result, no
    detector call, no label and no e-mail, the file left as it was. In a
    process that has loaded the store before, the file is not read at all:
    the run starts from the cached frame. *)
Theorem unreadable_store_is_insufficient_data (w : World) (e : exn) :
  read_csv (file w) = inl e →
  (∃ d, load_data w = mkRun (Ok d) (set_cache (Some d) w) [])
  ∧ (cache w = None →
     outcome (alerts_script w) = Ok (mkFrame STORE_COLUMNS [])
     ∧ events (alerts_script w) =
         [st_title " Real-Time Surge & Anomaly Alerts";
          st_warning "Not enough data for anomaly detection.";
          st_markdown "---"; st_caption FOOTER_CAPTION]
     ∧ detector_calls (events (alerts_script w)) = []
     ∧ attempted (events (alerts_script w)) = []
     ∧ labels_of (mkFrame STORE_COLUMNS []) = None
     ∧ file (world (alerts_script w)) = file w)
  ∧ (∀ d, cache w = Some d → load_data w = mkRun (Ok d) w []).
Proof.
  intros Hread. split_and!.
  - apply load_data_run.
  - intros Hcache.
    assert (outcome (load_data w) = Ok (mkFrame STORE_COLUMNS [])) as Hload.
    { unfold load_data. by rewrite Hcache, load_data_body_run, Hread. }
    rewrite (alerts_script_short w _ Hload) by (unfold len; simpl; lia).
    done.
  - intros d Hcache. unfold load_data. by rewrite Hcache.
Qed.

(** C9. [send_alert_email] returns normally for every subject, body and
    relay answer: it makes one delivery attempt and then reports it, with the
    success element when the message was sent and with the error element
    carrying the exception's text when the connection, the login or the send
    raised. *)
Theorem send_alert_email_never_raises (subject body : string) (w : World) :
  ∃ answer,
    answer = (smtp_deliver (sink w) (mime_text subject body)).2
    ∧ outcome (send_alert_email subject body w) = Ok tt
    ∧ events (send_alert_email subject body w) =
        [smtp_attempt (mime_text subject body) answer; delivery_report answer]
    ∧ (∀ e, smtp_exn answer = Some e →
         is_Exception e = true
         ∧ delivery_report answer =
             st_error (" Failed to send alert: " +:+ str_exn e)).
Proof.
  eexists. split; [done|]. rewrite send_alert_email_run. cbn [outcome events].
  split_and!; [done..|].
  intros e He. unfold delivery_report. rewrite He. split; [|done].
  by destruct (smtp_deliver _ _).2; simplify_eq/=.
Qed.

(** ** Submission *)

Lemma submit_script_run (w : World) (d : DataFrame) (f : pulse_form)
    (now : string) :
  outcome (load_data w) = Ok d → f_submitted f = true →
  submit_script f now w =
  mkRun (Ok d)
        (set_file (Stored (concat d (new_entry f now))) (set_cache (Some d) w))
        [st_title " Submit Daily Pulse Data";
         st_success "✅ Data submitted successfully!";
         st_markdown "---"; st_caption FOOTER_CAPTION].
Proof.
  intros Hload Hsub. destruct (load_data_run w) as [d0 Hd0].
  rewrite Hd0 in Hload. simplify_eq/=.
  unfold submit_script, submit_page. rewrite bind_run, Hd0. simpl.
  rewrite Hsub. rewrite !bind_run. simpl. done.
Qed.

End Properties.

(** * The claims on the sample stores *)


Lemma store10_numeric : @numeric_features env_ok store10.
Proof. apply (bool_decide_unpack _). by vm_compute. Qed.

(** Nine rows: the warning, and nothing else. *)
Lemma insufficient_data_is_terminal_witness :
  let w := world_of store9 in
  outcome (alerts_script w) = Ok store9
  ∧ events (alerts_script w) =
      [st_title " Real-Time Surge & Anomaly Alerts";
       st_warning "Not enough data for anomaly detection.";
       st_markdown "---"; st_caption FOOTER_CAPTION]
  ∧ detector_calls (events (alerts_script w)) = []
  ∧ attempted (events (alerts_script w)) = [].
Proof.
  apply (insufficient_data_is_terminal (world_of store9) store9).
  - reflexivity.
  - unfold len. simpl. lia.
Defined.



(** A missing crowd index passes the validation as the float [nan]: the
    detector is handed the row and the run labels all ten rows. *)
Example missing_value_is_handed_to_the_detector :
  @malformed env_ok store_missing_value → False.
Proof.
  intros [Hcols|(r & c & Hr & Hc & Hbad)].
  - apply Hcols. exact FEATURES_stored.
  - unfold store_missing_value in Hr. cbn [rows] in Hr.
    unfold FEATURES in Hc.
    rewrite elem_of_app, elem_of_replicate, !elem_of_cons, elem_of_nil in Hr.
    rewrite !elem_of_cons, elem_of_nil in Hc.
    destruct Hr as [[-> _]|[->|[]]], Hc as [->|[->|[->|[]]]];
      vm_compute in Hbad; discriminate Hbad.
Qed.

Example missing_value_store_is_labelled :
  ∃ d', outcome (alerts_script (world_of store_missing_value)) = Ok d'
        ∧ labels_of d' = Some (Num <$> replicate 10 1%Z)
        ∧ detector_calls (events (alerts_script (world_of store_missing_value)))
          = [replicate 9 [Num 40; Num 7; Num 3] ++ [[Num 40; Num 7; NaN]]].
Proof. eexists. split_and!; [reflexivity|by vm_compute|by vm_compute]. Qed.

(** Three alerts through a relay whose second delivery fails. *)
Lemma dispatch_isolates_failures_witness :
  let w : @World env_second_fails := @fresh env_second_fails Missing 0 0 in
  let answers :=
    (deliveries (sink w) (row_alert_email <$> rows three_surges)).2 in
  outcome (dispatch three_surges w) = Ok tt
  ∧ attempted (events (dispatch three_surges w)) =
      row_alert_email <$> rows three_surges
  ∧ length answers = length (rows three_surges)
  ∧ events (dispatch three_surges w) =
      mjoin (zip_with alert_events (rows three_surges) answers).
Proof.
  apply (dispatch_isolates_failures (H:=env_second_fails) three_surges).
  exact ALERT_COLUMNS_stored.
Defined.

Example second_of_three_fails :
  (deliveries (H:=env_second_fails) 0
     (row_alert_email <$> rows three_surges)).2
  = [Sent; SendFailed "Recipient refused"; Sent].
Proof. reflexivity. Qed.

(** A relay that refuses every login: detection completes, the labels are
    returned, and each of the three anomalies has its failed attempt. *)
Example relay_down_detection_completes :
  let r := @alerts_script env_down (@fresh env_down (Stored store3surges) 0 0) in
  (∃ d', outcome r = Ok d' ∧ anomaly_count d' = 3)
  ∧ length (attempted (events r)) = 3
  ∧ omap (λ ev, match ev with smtp_attempt _ res => Some res | _ => None end)
         (events r)
    = replicate 3 (LoginFailed "Username and Password not accepted").
Proof.
  split_and!.
  - eexists. split; [reflexivity|]. by vm_compute.
  - by vm_compute.
  - by vm_compute.
Qed.

(** No file at all: the read yields the empty frame with the eight columns. *)
Lemma load_data_unreadable_is_empty_witness :
  load_data_body world_without_file =
    mkRun (Ok (mkFrame STORE_COLUMNS [])) world_without_file []
  ∧ (cache world_without_file = None →
     load_data world_without_file =
     mkRun (Ok (mkFrame STORE_COLUMNS []))
           (set_cache (Some (mkFrame STORE_COLUMNS [])) world_without_file) [])
  ∧ length STORE_COLUMNS = 8.
Proof.
  apply (load_data_unreadable_is_empty world_without_file FileNotFoundError).
  reflexivity.
Defined.

Lemma unreadable_store_is_insufficient_data_witness :
  (∃ d, load_data world_without_file =
          mkRun (Ok d) (set_cache (Some d) world_without_file) [])
  ∧ (cache world_without_file = None →
     outcome (alerts_script world_without_file) = Ok (mkFrame STORE_COLUMNS [])
     ∧ events (alerts_script world_without_file) =
         [st_title " Real-Time Surge & Anomaly Alerts";
          st_warning "Not enough data for anomaly detection.";
          st_markdown "---"; st_caption FOOTER_CAPTION]
     ∧ detector_calls (events (alerts_script world_without_file)) = []
     ∧ attempted (events (alerts_script world_without_file)) = []
     ∧ labels_of (mkFrame STORE_COLUMNS []) = None
     ∧ file (world (alerts_script world_without_file))
       = file world_without_file)
  ∧ (∀ d, cache world_without_file = Some d →
       load_data world_without_file = mkRun (Ok d) world_without_file []).
Proof.
  apply (unreadable_store_is_insufficient_data world_without_file
           FileNotFoundError); reflexivity.
Defined.

(** C7 as stated fails: with the file absent the read raises, yet the
    detection run raises nothing. *)
Lemma unreadable_store_run_does_not_fail :
  read_csv (file world_without_file) = inl FileNotFoundError
  ∧ ¬ (∃ e, outcome (alerts_script world_without_file) = Raised e).
Proof.
  split; [reflexivity|].
  intros [e He]. vm_compute in He. discriminate He.
Qed.

(** C10 (code defect). Two submissions in one process over a store of nine
    rows: the first writes the nine rows and its record; the second starts
    again from the nine rows the process loaded first, so the file it writes
    holds the second record and no longer the first. Both files have ten
    rows. *)
Theorem second_submission_drops_first_record :
  let w1 := world (submit_script sample_form "10:05" (world_of store9)) in
  let w2 := world (submit_script second_form "10:06" w1) in
  file w1 =
    Stored (mkFrame STORE_COLUMNS
              (rows store9 ++ [entry_of_form sample_form "10:05"]))
  ∧ file w2 =
    Stored (mkFrame STORE_COLUMNS
              (rows store9 ++ [entry_of_form second_form "10:06"]))
  ∧ (entry_of_form sample_form "10:05"
       ∉ rows store9 ++ [entry_of_form second_form "10:06"])
  ∧ length (rows store9 ++ [entry_of_form sample_form "10:05"]) = 10
  ∧ length (rows store9 ++ [entry_of_form second_form "10:06"]) = 10.
Proof.
  split_and!; [reflexivity|reflexivity| |reflexivity|reflexivity].
  apply (bool_decide_unpack _). by vm_compute.
Qed.

(** C2 (code defect). A process loads a store of nine rows and a submission
    then writes a tenth: the file holds ten observations, all with numbers in
    the three feature columns, yet the alerts page of that process still
    works on the nine rows it loaded first: it shows the insufficient-data
    warning, never calls the detector and labels nothing. *)
Theorem stale_frame_hides_tenth_observation :
  let w := world (submit_script sample_form "10:05" (world_of store9)) in
  (∃ df, file w = Stored df ∧ len df = 10 ∧ columns df = STORE_COLUMNS
         ∧ @numeric_features env_ok df)
  ∧ events (alerts_script w) =
      [st_title " Real-Time Surge & Anomaly Alerts";
       st_warning "Not enough data for anomaly detection.";
       st_markdown "---"; st_caption FOOTER_CAPTION]
  ∧ detector_calls (events (alerts_script w)) = []
  ∧ outcome (alerts_script w) = Ok store9
  ∧ labels_of store9 = None.
Proof.
  split_and!; [|reflexivity..].
  eexists. split_and!; [reflexivity..|].
  apply (bool_decide_unpack _). by vm_compute.
Qed.

(** * Further properties of the script *)

Section Sessions_properties.

Context `{Environment}.

(** ** Runs that leave the cache alone *)

Definition keeps_cache {A} (m : M A) : Prop :=
  ∀ w, cache (world (m w)) = cache w.

Lemma keeps_cache_ret {A} (a : A) : keeps_cache (ret a).
Proof. done. Qed.

Lemma keeps_cache_raise {A} (e : exn) : keeps_cache (raise (A:=A) e).
Proof. done. Qed.

Lemma keeps_cache_emit (ev : event) : keeps_cache (emit ev).
Proof. done. Qed.

Lemma keeps_cache_lift {A} (r : exn + A) : keeps_cache (lift r).
Proof. by destruct r. Qed.

Lemma keeps_cache_bind {A B} (m : M A) (k : A → M B) :
  keeps_cache m → (∀ a, keeps_cache (k a)) → keeps_cache (m ≫= k).
Proof.
  intros Hm Hk w. rewrite bind_run.
  destruct (outcome (m w)); simpl; [rewrite Hk|]; apply Hm.
Qed.

Lemma keeps_cache_try_except {A} (m : M A) (c : exn → bool) (h : exn → M A) :
  keeps_cache m → (∀ e, keeps_cache (h e)) → keeps_cache (try_except m c h).
Proof.
  intros Hm Hh w. unfold try_except.
  destruct (outcome (m w)) as [a|e]; [apply Hm|].
  destruct (c e); simpl; [rewrite Hh|]; apply Hm.
Qed.

Lemma keeps_cache_for_each {A} (xs : list A) (body : A → M unit) :
  (∀ x, keeps_cache (body x)) → keeps_cache (for_each xs body).
Proof.
  intros Hb. induction xs as [|x xs IH]; [done|].
  by apply keeps_cache_bind.
Qed.

Lemma keeps_cache_smtp_send (msg : email) : keeps_cache (smtp_send msg).
Proof. intros w. unfold smtp_send. by destruct (smtp_deliver _ _). Qed.

Lemma keeps_cache_forest_predictions (c : Q) (Xf : list (list number)) :
  keeps_cache (forest_predictions c Xf).
Proof.
  intros w. unfold forest_predictions. by destruct (isolation_forest _ _ _).
Qed.

Lemma keeps_cache_save_data (df : DataFrame) : keeps_cache (save_data df).
Proof. done. Qed.

Create HintDb keeps_cache.
#[local] Hint Resolve keeps_cache_ret keeps_cache_raise keeps_cache_emit
  keeps_cache_lift keeps_cache_bind keeps_cache_try_except
  keeps_cache_for_each keeps_cache_smtp_send keeps_cache_forest_predictions
  keeps_cache_save_data : keeps_cache.

Lemma keeps_cache_alerts_page (data : DataFrame) :
  keeps_cache (alerts_page data).
Proof.
  unfold alerts_page.
  apply keeps_cache_bind; [auto with keeps_cache|intros _].
  case_bool_decide; [auto with keeps_cache|].
  apply keeps_cache_bind.
  - unfold detect, fit_predict.
    repeat (apply keeps_cache_bind; [auto with keeps_cache|intros ?]).
    + destruct (check_array _); auto with keeps_cache.
    + auto with keeps_cache.
  - intros [d' alerts]. apply keeps_cache_bind; [|auto with keeps_cache].
    unfold dispatch, alert_row, send_alert_email.
    auto 14 with keeps_cache.
Qed.

Lemma keeps_cache_submit_page (data : DataFrame) (f : pulse_form)
    (now : string) :
  keeps_cache (submit_page data f now).
Proof.
  unfold submit_page.
  apply keeps_cache_bind; [auto with keeps_cache|intros _].
  destruct (f_submitted f); auto with keeps_cache.
Qed.

Lemma keeps_cache_footer : keeps_cache footer.
Proof. unfold footer. auto with keeps_cache. Qed.

(** After a run of either script the cache holds the frame the run loaded:
    the labels the alerts page writes and the record a submission appends go
    to the run's own copy. *)
Lemma alerts_script_cache (w : World) (d : DataFrame) :
  outcome (load_data w) = Ok d → cache (world (alerts_script w)) = Some d.
Proof.
  intros Hload. destruct (load_data_run w) as [d0 Hd0].
  rewrite Hd0 in Hload. simplify_eq/=.
  unfold alerts_script. rewrite bind_run, Hd0. cbn [outcome world events].
  assert (keeps_cache (alerts_page d ≫= λ data', footer ;; ret data')) as Hk.
  { apply keeps_cache_bind; [apply keeps_cache_alerts_page|intros d'].
    apply keeps_cache_bind; [apply keeps_cache_footer|auto with keeps_cache]. }
  apply Hk.
Qed.

Lemma submit_script_cache (w : World) (d : DataFrame) (f : pulse_form)
    (now : string) :
  outcome (load_data w) = Ok d →
  cache (world (submit_script f now w)) = Some d.
Proof.
  intros Hload. destruct (load_data_run w) as [d0 Hd0].
  rewrite Hd0 in Hload. simplify_eq/=.
  unfold submit_script. rewrite bind_run, Hd0. cbn [outcome world events].
  assert (keeps_cache (submit_page d f now ;; footer ;; ret d)) as Hk.
  { apply keeps_cache_bind; [apply keeps_cache_submit_page|intros _].
    apply keeps_cache_bind; [apply keeps_cache_footer|auto with keeps_cache]. }
  apply Hk.
Qed.

Lemma load_data_cached (w : World) (d : DataFrame) :
  cache w = Some d → outcome (load_data w) = Ok d.
Proof. intros Hc. unfold load_data. by rewrite Hc. Qed.

Lemma load_data_after_session (acts : list action) (w : World) :
  Forall (λ a, is_restart a = false) acts →
  outcome (load_data (session acts w)) = outcome (load_data w).
Proof.
  intros Hacts. revert w.
  induction Hacts as [|a acts Ha _ IH]; intros w; [done|].
  unfold session in *. cbn [foldl]. rewrite IH.
  destruct (load_data_run w) as [d Hd].
  assert (outcome (load_data w) = Ok d) as Hload by (by rewrite Hd).
  rewrite Hload. apply load_data_cached.
  destruct a as [f now| |g s]; [| |done]; cbn [perform].
  - by apply submit_script_cache.
  - by apply alerts_script_cache.
Qed.

(** X1. Within one process the frame the script works on is fixed by the
    first load: after any sequence of submissions and alert runs without a
    restart, [load_data] returns what it would have returned at the start,
    whatever has been written to the file since, and the cache holds that
    frame, without the labels an alerts page wrote. *)
Theorem load_data_fixed_within_process (acts : list action) (w : World)
    (d : DataFrame) :
  Forall (λ a, is_restart a = false) acts →
  outcome (load_data w) = Ok d →
  outcome (load_data (session acts w)) = Ok d
  ∧ cache (world (alerts_script (session acts w))) = Some d
  ∧ ∀ f now, cache (world (submit_script f now (session acts w))) = Some d.
Proof.
  intros Hacts Hload.
  assert (outcome (load_data (session acts w)) = Ok d) as Hload'
    by (by rewrite load_data_after_session).
  split_and!; [done|by apply alerts_script_cache|].
  intros f now. by apply submit_script_cache.
Qed.

(** X2. What a submission writes is the frame loaded first in the process
    with the new record at its end: runs made in between, submissions
    included, leave no trace in the file it writes. *)
Theorem submission_writes_first_loaded_frame (acts : list action) (w : World)
    (d : DataFrame) (f : pulse_form) (now : string) :
  Forall (λ a, is_restart a = false) acts →
  outcome (load_data w) = Ok d → f_submitted f = true →
  file (world (submit_script f now (session acts w)))
  = Stored (concat d (new_entry f now))
  ∧ file (world (submit_script f now (session acts w)))
    = file (world (submit_script f now w)).
Proof.
  intros Hacts Hload Hsub.
  assert (outcome (load_data (session acts w)) = Ok d) as Hload'
    by (by rewrite load_data_after_session).
  by rewrite (submit_script_run _ d f now Hload' Hsub),
    (submit_script_run _ d f now Hload Hsub).
Qed.

(** X3. In a process that has not loaded the store yet, a submission over a
    readable file writes the stored frame with the new record at its end:
    every stored row stays at its index and the file gains exactly one row. *)
Theorem first_submission_appends_to_file (w : World) (df : DataFrame)
    (f : pulse_form) (now : string) :
  cache w = None → file w = Stored df → f_submitted f = true →
  ∃ saved,
    file (world (submit_script f now w)) = Stored saved
    ∧ rows saved = rows df ++ [entry_of_form f now]
    ∧ len saved = S (len df)
    ∧ (∀ i r, rows df !! i = Some r → rows saved !! i = Some r)
    ∧ (columns df = STORE_COLUMNS → columns saved = STORE_COLUMNS).
Proof.
  intros Hcache Hfile Hsub.
  assert (outcome (load_data w) = Ok df) as Hload.
  { unfold load_data. by rewrite Hcache, load_data_body_run, Hfile. }
  rewrite (submit_script_run w df f now Hload Hsub).
  eexists. split; [done|]. cbn [concat rows columns new_entry].
  split_and!.
  - done.
  - unfold len, concat. simpl. rewrite length_app. simpl. lia.
  - intros i r Hr. by apply lookup_app_l_Some.
  - by intros ->.
Qed.

(** X4. In a process that has not loaded the store yet, a submission over a
    file that is absent, or whose content does not parse as a table, hands
    [save_data] a frame of exactly one row, the submitted record, under the
    eight store columns: what an unparsable file held is not kept. *)
Theorem first_submission_creates_store (w : World) (f : pulse_form)
    (now : string) :
  cache w = None →
  file w = Missing ∨ (∃ msg, file w = Unreadable (ParserError msg)) →
  f_submitted f = true →
  file (world (submit_script f now w))
  = Stored (mkFrame STORE_COLUMNS [entry_of_form f now]).
Proof.
  intros Hcache Hfile Hsub.
  assert (outcome (load_data w) = Ok (empty_frame STORE_COLUMNS)) as Hload.
  { unfold load_data. rewrite Hcache, load_data_body_run.
    by destruct Hfile as [->|[msg ->]]. }
  by rewrite (submit_script_run w _ f now Hload Hsub).
Qed.

Lemma submit_script_unsubmitted (w : World) (f : pulse_form) (now : string) :
  f_submitted f = false → file (world (submit_script f now w)) = file w.
Proof.
  intros Hsub. destruct (load_data_run w) as [d Hd].
  unfold submit_script, submit_page. rewrite bind_run, Hd.
  cbn [outcome world events]. rewrite !bind_run. cbn [outcome world events emit].
  by rewrite Hsub.
Qed.

(** X5. A run of the submission script never calls the detector, never
    attempts an e-mail and leaves the generator and the relay as they were;
    it shows the success message only when the form was submitted, and
    without a submitted form it leaves the file as it was. *)
Theorem submit_script_effects (w : World) (f : pulse_form) (now : string) :
  detector_calls (events (submit_script f now w)) = []
  ∧ attempted (events (submit_script f now w)) = []
  ∧ rng (world (submit_script f now w)) = rng w
  ∧ sink (world (submit_script f now w)) = sink w
  ∧ (st_success "✅ Data submitted successfully!"
       ∈ events (submit_script f now w) → f_submitted f = true)
  ∧ (f_submitted f = false → file (world (submit_script f now w)) = file w).
Proof.
  destruct (load_data_run w) as [d Hd].
  unfold submit_script, submit_page. rewrite bind_run, Hd.
  cbn [outcome world events]. rewrite !bind_run. cbn [outcome world events emit].
  destruct (f_submitted f); rewrite ?bind_run; simpl.
  - by split_and!.
  - split_and!; [done..| |done].
    rewrite !elem_of_cons, elem_of_nil. intros [?|[?|[?|[]]]]; discriminate.
Qed.

(** ** Stores the script built itself *)

Lemma entry_of_form_features (f : pulse_form) (now : string) :
  Forall (λ c, ∃ z, cell_of (entry_of_form f now) c = Num z) FEATURES.
Proof.
  unfold FEATURES, entry_of_form, cell_of.
  repeat constructor; simplify_map_eq; eauto.
Qed.

Lemma app_built_empty : app_built (empty_frame STORE_COLUMNS).
Proof. split; [done|]. constructor. Qed.

Lemma app_built_concat (d : DataFrame) (f : pulse_form) (now : string) :
  app_built d → app_built (concat d (new_entry f now)).
Proof.
  intros [Hcols Hrows]. split.
  - unfold concat. by rewrite Hcols.
  - cbn [concat rows new_entry]. apply Forall_app. split; [done|].
    constructor; [apply entry_of_form_features|constructor].
Qed.


Lemma app_state_loaded (w : World) (d : DataFrame) :
  app_state w → outcome (load_data w) = Ok d → app_built d.
Proof.
  intros [Hfile Hcache] Hload. unfold load_data in Hload.
  destruct (cache w) as [dc|] eqn:Hc.
  - simplify_eq/=. by apply Hcache.
  - rewrite load_data_body_run in Hload. simpl in Hload.
    destruct (file w) as [|e|df] eqn:Hf; simplify_eq/=;
      [apply app_built_empty..|by apply Hfile].
Qed.

Lemma app_state_perform (w : World) (a : action) :
  app_state w → app_state (perform w a).
Proof.
  intros Hw. pose proof Hw as [Hfile Hcache].
  destruct (load_data_run w) as [d Hd].
  assert (outcome (load_data w) = Ok d) as Hload by (by rewrite Hd).
  pose proof (app_state_loaded w d Hw Hload) as Hd_built.
  destruct a as [f now| |g s]; cbn [perform].
  - split.
    + destruct (f_submitted f) eqn:Hsub.
      * rewrite (submit_script_run w d f now Hload Hsub). simpl.
        intros df [= <-]. by apply app_built_concat.
      * rewrite submit_script_unsubmitted by done. exact Hfile.
    + rewrite (submit_script_cache w d f now Hload). by intros df [= <-].
  - split.
    + rewrite keeps_file_alerts_script. exact Hfile.
    + rewrite (alerts_script_cache w d Hload). by intros df [= <-].
  - split; [exact Hfile|done].
Qed.

Lemma app_state_foldl (acts : list action) (w : World) :
  app_state w → app_state (foldl perform w acts).
Proof.
  revert w. induction acts as [|a acts IH]; intros w Hw; [done|].
  cbn [foldl]. by apply IH, app_state_perform.
Qed.

(** X6. Starting from a process whose file and cache hold nothing but frames
    the script built (in particular from no file at all), every sequence
    of submissions, alert runs and restarts keeps it so: the file, when it
    holds a frame, has exactly the eight store columns, and every stored row
    has integers in the three feature columns. *)
Theorem app_state_session (acts : list action) (w : World) :
  app_state w → app_state (session acts w).
Proof. apply app_state_foldl. Qed.


(** ** Labels and rows stay aligned *)

Lemma detect_returns (data d' alerts : DataFrame) (w : World) :
  outcome (detect data w) = Ok (d', alerts) →
  ∃ predictions,
    setitem_column data "anomaly" predictions = inr d'
    ∧ alerts = where_eq d' "anomaly" (Num (-1)).
Proof.
  unfold detect, fit_predict. rewrite bind_run.
  destruct (getitem_columns data FEATURES) as [e|features]; [done|].
  cbn [lift outcome world events ret]. rewrite !bind_run.
  cbn [emit outcome world events].
  destruct (check_array _) as [Xf|]; [|done].
  unfold forest_predictions.
  destruct (isolation_forest _ _ _) as [g y]. cbn [outcome world events].
  rewrite bind_run.
  destruct (setitem_column data "anomaly" y) as [e|dl] eqn:Hset; [done|].
  cbn [lift ret outcome world events]. intros [= <- <-]. eauto.
Qed.

Lemma alerts_script_returns (w : World) (d d' : DataFrame) :
  outcome (load_data w) = Ok d → 10 ≤ len d →
  outcome (alerts_script w) = Ok d' →
  ∃ w1 alerts, outcome (detect d w1) = Ok (d', alerts).
Proof.
  intros Hload Hlen. destruct (load_data_run w) as [d0 Hd0].
  rewrite Hd0 in Hload. simplify_eq/=.
  unfold alerts_script, alerts_page. rewrite bind_run, Hd0.
  cbn [outcome world events]. rewrite !bind_run.
  cbn [emit outcome world events].
  rewrite bool_decide_eq_false_2 by lia. rewrite !bind_run.
  destruct (outcome (detect d (set_cache (Some d) w)))
    as [[dl alerts]|e] eqn:Hdet; [|done].
  cbn [outcome world events]. rewrite !bind_run.
  destruct (outcome (dispatch alerts _)) as [[]|e]; [|done].
  cbn [ret outcome world events]. rewrite !bind_run. simpl.
  intros [= <-]. eauto.
Qed.

(** X8. Whatever the forest returns, a detection run that returns above the
    threshold returns the loaded rows, in their order, each with a prediction
    written into its [anomaly] cell: the label column has one entry per
    loaded row and no row is dropped, added or reordered. *)
Theorem labels_aligned_when_returned (w : World) (d d' : DataFrame) :
  outcome (load_data w) = Ok d → 10 ≤ len d →
  outcome (alerts_script w) = Ok d' →
  ∃ predictions,
    length predictions = len d
    ∧ len d' = len d
    ∧ rows d' = zip_with (λ r v, <["anomaly" := Num v]> r) (rows d) predictions
    ∧ labels_of d' = Some (Num <$> predictions).
Proof.
  intros Hload Hlen Hout.
  destruct (alerts_script_returns w d d' Hload Hlen Hout)
    as (w1 & alerts & Hdet).
  destruct (detect_returns d d' alerts w1 Hdet) as (y & Hset & _).
  unfold setitem_column in Hset. case_bool_decide as Hy; [|done].
  injection Hset as <-. exists y. unfold len in *. cbn [rows columns].
  split_and!; [done| |done|].
  - rewrite length_zip_with. lia.
  - unfold labels_of. cbn [rows columns].
    rewrite bool_decide_eq_true_2 by (case_bool_decide; set_solver).
    by rewrite anomaly_column_read.
Qed.

(** X9. When the forest hands back a number of predictions other than the
    number of rows, the assignment of the label column raises [ValueError]:
    the run ends there, after the one detector call, with no label written
    and no e-mail attempted. *)
Theorem misaligned_predictions_abort (w : World) (d : DataFrame)
    (Xf : list (list number)) :
  outcome (load_data w) = Ok d → 10 ≤ len d → FEATURES ⊆ columns d →
  check_array (to_matrix (mkFrame FEATURES (rows d))) = Some Xf →
  length (isolation_forest (1 # 10) (rng w) Xf).2 ≠ len d →
  outcome (alerts_script w)
  = Raised (ValueError "Length of values does not match length of index")
  ∧ detector_calls (events (alerts_script w))
    = [to_matrix (mkFrame FEATURES (rows d))]
  ∧ attempted (events (alerts_script w)) = [].
Proof.
  intros Hload Hlen Hcols HXf Hbad. destruct (load_data_run w) as [d0 Hd0].
  rewrite Hd0 in Hload. simplify_eq/=.
  destruct (isolation_forest (1 # 10) (rng w) Xf) as [g y] eqn:Hforest.
  simpl in Hbad.
  assert (detect d (set_cache (Some d) w) =
          mkRun (Raised (ValueError
                   "Length of values does not match length of index"))
                (set_rng g (set_cache (Some d) w))
                [fit_predict_call (to_matrix (mkFrame FEATURES (rows d)))])
    as Hdetect.
  { unfold detect, fit_predict. rewrite getitem_columns_present by done.
    rewrite !bind_run. simpl. rewrite HXf. rewrite !bind_run. simpl.
    unfold forest_predictions. simpl. rewrite Hforest. simpl.
    unfold setitem_column. by rewrite bool_decide_eq_false_2. }
  unfold alerts_script, alerts_page. rewrite bind_run, Hd0. simpl.
  rewrite !bind_run. simpl.
  rewrite bool_decide_eq_false_2 by lia.
  by rewrite !bind_run, Hdetect.
Qed.

(** ** Which prediction goes to which row *)

Lemma alerts_script_detected (w : World) (d : DataFrame)
    (Xf : list (list number)) :
  outcome (load_data w) = Ok d → 10 ≤ len d → STORE_COLUMNS ⊆ columns d →
  check_array (to_matrix (mkFrame FEATURES (rows d))) = Some Xf →
  alerts_script w =
  let gy := isolation_forest (1 # 10) (rng w) Xf in
  let w1 := set_rng gy.1 (set_cache (Some d) w) in
  let opening :=
    [st_title " Real-Time Surge & Anomaly Alerts";
     fit_predict_call (to_matrix (mkFrame FEATURES (rows d)))] in
  match setitem_column d "anomaly" gy.2 with
  | inr d' =>
      let alerts := where_eq d' "anomaly" (Num (-1)) in
      let dl := deliveries (sink w) (row_alert_email <$> rows alerts) in
      mkRun (Ok d') (set_sink dl.1 w1)
            (opening ++ mjoin (zip_with alert_events (rows alerts) dl.2)
             ++ [st_markdown "---"; st_caption FOOTER_CAPTION])
  | inl e => mkRun (Raised e) w1 opening
  end.
Proof.
  intros Hload Hlen Hcols HXf. destruct (load_data_run w) as [d0 Hd0].
  rewrite Hd0 in Hload. simplify_eq/=.
  assert (FEATURES ⊆ columns d) as Hfeat
    by (etrans; [apply FEATURES_stored|done]).
  destruct (isolation_forest (1 # 10) (rng w) Xf) as [g y] eqn:Hforest.
  assert (detect d (set_cache (Some d) w) =
          match setitem_column d "anomaly" y with
          | inr d' =>
              mkRun (Ok (d', where_eq d' "anomaly" (Num (-1))))
                    (set_rng g (set_cache (Some d) w))
                    [fit_predict_call (to_matrix (mkFrame FEATURES (rows d)))]
          | inl e =>
              mkRun (Raised e) (set_rng g (set_cache (Some d) w))
                    [fit_predict_call (to_matrix (mkFrame FEATURES (rows d)))]
          end) as Hdetect.
  { unfold detect, fit_predict. rewrite getitem_columns_present by done.
    rewrite !bind_run. simpl. rewrite HXf. rewrite !bind_run. simpl.
    unfold forest_predictions. simpl. rewrite Hforest. simpl.
    by destruct (setitem_column d "anomaly" y). }
  unfold alerts_script, alerts_page. rewrite bind_run, Hd0. simpl.
  rewrite !bind_run. simpl.
  rewrite bool_decide_eq_false_2 by lia.
  rewrite !bind_run, Hdetect.
  destruct (setitem_column d "anomaly" y) as [e|d'] eqn:Hset; [done|].
  assert (ALERT_COLUMNS ⊆ columns (where_eq d' "anomaly" (Num (-1))))
    as Halert.
  { simpl. etrans; [apply ALERT_COLUMNS_stored|].
    etrans; [exact Hcols|]. by eapply setitem_column_columns. }
  simpl. unfold dispatch. rewrite !bind_run.
  rewrite for_each_alert_rows by done. simpl. by rewrite app_nil_r.
Qed.

(** X16. When the frame a run loads has ten observations or more, the
    store's columns and feature cells that pass the validation, the detector
    is called once, on the matrix whose line [i] holds the three features of
    row [i]. If it answers with as many predictions as there are rows, the
    run returns the loaded rows in their order, row [i] with prediction [i]
    of that answer in its [anomaly] cell, so every observation has exactly
    one label, [anomalous] when its prediction is [-1] and [normal]
    otherwise, and the e-mails attempted are those of the rows labelled
    anomalous, in row order. If it answers with another number of
    predictions, the run raises [ValueError] and nothing is labelled or
    sent. *)
Theorem detector_labels_every_observation (w : World) (d : DataFrame) :
  outcome (load_data w) = Ok d → 10 ≤ len d →
  STORE_COLUMNS ⊆ columns d → numeric_features d →
  ∃ Xf,
    check_array (to_matrix (mkFrame FEATURES (rows d))) = Some Xf
    ∧ (∀ i r, rows d !! i = Some r →
         Xf !! i = mapM as_float (cell_of r <$> FEATURES))
    ∧ detector_calls (events (alerts_script w)) =
        [to_matrix (mkFrame FEATURES (rows d))]
    ∧ let predictions := (isolation_forest (1 # 10) (rng w) Xf).2 in
      (length predictions = len d →
       ∃ d',
         outcome (alerts_script w) = Ok d'
         ∧ rows d' =
             zip_with (λ r p, <["anomaly" := Num p]> r) (rows d) predictions
         ∧ labels_of d' = Some (Num <$> predictions)
         ∧ (∀ i r, rows d !! i = Some r →
              ∃ p, predictions !! i = Some p
                   ∧ rows d' !! i = Some (<["anomaly" := Num p]> r)
                   ∧ (label_of p = anomalous ↔ p = (-1)%Z))
         ∧ attempted (events (alerts_script w)) =
             row_alert_email <$>
               filter (λ r, cell_of r "anomaly" = Num (-1)) (rows d'))
      ∧ (length predictions ≠ len d →
         outcome (alerts_script w) =
           Raised (ValueError "Length of values does not match length of index")
         ∧ attempted (events (alerts_script w)) = []).
Proof.
  intros Hload Hlen Hcols Hnum.
  destruct (check_array_numeric d Hnum) as (Xf & HXf & HlenX).
  exists Xf. split; [done|].
  rewrite (alerts_script_detected w d Xf Hload Hlen Hcols HXf).
  cbv zeta. set (y := (isolation_forest (1 # 10) (rng w) Xf).2).
  split_and!.
  - intros i r Hr. apply mapM_Some_1 in HXf.
    assert (to_matrix (mkFrame FEATURES (rows d)) !! i
            = Some (cell_of r <$> FEATURES)) as Hline.
    { unfold to_matrix. cbn [rows columns]. by rewrite list_lookup_fmap, Hr. }
    destruct (Forall2_lookup_l _ _ _ _ _ HXf Hline) as (x & Hx & Hconv).
    by rewrite Hx, Hconv.
  - destruct (setitem_column d "anomaly" y); cbn [events]; [done|].
    by rewrite !detector_calls_app, detector_calls_alert_events.
  - intros Hy. rewrite setitem_column_same_length by done.
    eexists. cbn [outcome events rows columns where_eq].
    split_and!; [done|done| | |].
    + unfold labels_of. cbn [rows columns].
      rewrite bool_decide_eq_true_2 by (case_bool_decide; set_solver).
      by rewrite anomaly_column_read.
    + intros i r Hr.
      destruct (lookup_lt_is_Some_2 y i) as [p Hp].
      { rewrite Hy. by eapply lookup_lt_Some. }
      exists p. split_and!; [done| |].
      * apply lookup_zip_with_Some. eauto.
      * unfold label_of. case_bool_decide; split; intros; by simplify_eq.
    + rewrite !attempted_app, attempted_alert_events
        by apply deliveries_length_fmap.
      apply app_nil_r.
  - intros Hy. unfold setitem_column.
    by rewrite bool_decide_eq_false_2.
Qed.

(** ** The dispatch loop without the columns it reads *)

(** X10. When the frame of alerts lacks one of the four columns the alert
    text reads, the loop raises [KeyError] at its first row, before anything
    is shown or sent, and the key is the first missing one in the order the
    text reads them: region, sector, crowd index, queue time. With no row to
    alert the loop returns normally. *)
Theorem dispatch_missing_column (alerts : DataFrame) (w : World) :
  ¬ (ALERT_COLUMNS ⊆ columns alerts) →
  (rows alerts = [] → dispatch alerts w = mkRun (Ok tt) w [])
  ∧ (rows alerts ≠ [] →
     ∃ c later,
       filter (λ c, c ∉ columns alerts)
              ["region"; "sector"; "crowd_index"; "queue_time"] = c :: later
       ∧ dispatch alerts w = mkRun (Raised (KeyError c)) w []).
Proof.
  intros Hmiss. unfold dispatch. split.
  - by intros ->.
  - destruct (rows alerts) as [|r rs]; [done|]. intros _.
    cbn [for_each]. rewrite bind_run. unfold alert_row, getitem_row.
    rewrite !filter_cons, filter_nil.
    destruct (decide ("region" ∈ columns alerts)) as [H1|H1].
    2:{ rewrite (bool_decide_eq_false_2 _ H1), decide_True by done. eauto. }
    rewrite (bool_decide_eq_true_2 _ H1), decide_False by auto.
    destruct (decide ("sector" ∈ columns alerts)) as [H2|H2].
    2:{ rewrite (bool_decide_eq_false_2 _ H2), decide_True by done. eauto. }
    rewrite (bool_decide_eq_true_2 _ H2), decide_False by auto.
    destruct (decide ("crowd_index" ∈ columns alerts)) as [H3|H3].
    2:{ rewrite (bool_decide_eq_false_2 _ H3), decide_True by done. eauto. }
    rewrite (bool_decide_eq_true_2 _ H3), decide_False by auto.
    destruct (decide ("queue_time" ∈ columns alerts)) as [H4|H4].
    2:{ rewrite (bool_decide_eq_false_2 _ H4), decide_True by done. eauto. }
    destruct Hmiss. intros c Hc. unfold ALERT_COLUMNS in Hc.
    rewrite !elem_of_cons, elem_of_nil in Hc.
    by destruct Hc as [->|[->|[->|[->|[]]]]].
Qed.

(** ** Where alerts go *)

(** Every e-mail attempted goes from the fixed sender to [ALERT_EMAIL], and
    its body is the text of an error element of the same run. *)
Definition alert_logged (evs : list event) : Prop :=
  Forall (λ m, e_to m = ALERT_EMAIL
               ∧ e_from m = "your-sender-email@example.com"
               ∧ st_error (e_body m) ∈ evs)
         (attempted evs).

Definition logs {A} (m : M A) : Prop :=
  ∀ w, alert_logged (events (m w)).

Lemma alert_logged_app (l1 l2 : list event) :
  alert_logged l1 → alert_logged l2 → alert_logged (l1 ++ l2).
Proof.
  unfold alert_logged. intros H1 H2. rewrite attempted_app.
  apply Forall_app. split.
  - eapply Forall_impl; [exact H1|]. intros m (?&?&?).
    split_and!; [done..|]. apply elem_of_app. by left.
  - eapply Forall_impl; [exact H2|]. intros m (?&?&?).
    split_and!; [done..|]. apply elem_of_app. by right.
Qed.

Lemma alert_logged_silent (evs : list event) :
  attempted evs = [] → alert_logged evs.
Proof. unfold alert_logged. intros ->. constructor. Qed.

Lemma logs_bind {A B} (m : M A) (k : A → M B) :
  logs m → (∀ a, logs (k a)) → logs (m ≫= k).
Proof.
  intros Hm Hk w. rewrite bind_run.
  destruct (outcome (m w)); cbn [events]; [|apply Hm].
  apply alert_logged_app; [apply Hm|apply Hk].
Qed.

Lemma logs_silent {A} (m : M A) :
  (∀ w, attempted (events (m w)) = []) → logs m.
Proof. intros Hm w. by apply alert_logged_silent. Qed.

Lemma logs_for_each {A} (xs : list A) (body : A → M unit) :
  (∀ x, logs (body x)) → logs (for_each xs body).
Proof.
  intros Hb. induction xs as [|x xs IH]; [by apply logs_silent|].
  by apply logs_bind.
Qed.

Lemma alert_logged_alert_events (r : row) (res : smtp_result) :
  alert_logged (alert_events r res).
Proof.
  unfold alert_logged, alert_events, attempted, delivery_report. simpl.
  destruct (smtp_exn res); simpl; repeat constructor.
Qed.

Lemma logs_alert_row (alerts : DataFrame) (r : row) :
  logs (alert_row alerts r).
Proof.
  intros w. destruct (decide (ALERT_COLUMNS ⊆ columns alerts)) as [Hc|Hc].
  - rewrite alert_row_run by done. apply alert_logged_alert_events.
  - apply alert_logged_silent. unfold alert_row, getitem_row.
    repeat case_bool_decide; rewrite ?bind_run; try done.
    destruct Hc. intros c Hin. unfold ALERT_COLUMNS in Hin.
    rewrite !elem_of_cons, elem_of_nil in Hin.
    by destruct Hin as [->|[->|[->|[->|[]]]]].
Qed.

Lemma logs_detect (data : DataFrame) : logs (detect data).
Proof.
  unfold detect, fit_predict.
  apply logs_bind; [apply logs_silent; intros w; by destruct (getitem_columns _ _)|].
  intros features. apply logs_bind.
  - apply logs_bind; [by apply logs_silent|]. intros _.
    destruct (check_array _); apply logs_silent; intros w; [|done].
    unfold forest_predictions. by destruct (isolation_forest _ _ _).
  - intros y. apply logs_bind; [|intros d'; by apply logs_silent].
    apply logs_silent. intros w. by destruct (setitem_column _ _ _).
Qed.

Lemma logs_alerts_script : logs alerts_script.
Proof.
  unfold alerts_script.
  apply logs_bind.
  { apply logs_silent. intros w. by destruct (load_data_run w) as [d ->]. }
  intros data. apply logs_bind.
  - unfold alerts_page. apply logs_bind; [by apply logs_silent|]. intros _.
    case_bool_decide.
    + apply logs_bind; [by apply logs_silent|]. intros _. by apply logs_silent.
    + apply logs_bind; [apply logs_detect|]. intros [d' alerts].
      apply logs_bind; [|intros _; by apply logs_silent].
      apply logs_for_each, logs_alert_row.
  - intros d'. unfold footer. apply logs_bind; [|intros _; by apply logs_silent].
    apply logs_bind; [by apply logs_silent|]. intros _. by apply logs_silent.
Qed.

(** X11. In every run of the alerts page, returning or not, each e-mail
    attempted is addressed to [ALERT_EMAIL] from the fixed sender, and its
    body is a text the page also shows as an error element: nothing is sent
    that the page does not display, and nothing goes to another address. *)
Theorem alerts_go_to_alert_email (w : World) :
  Forall (λ m, e_to m = ALERT_EMAIL
               ∧ e_from m = "your-sender-email@example.com"
               ∧ st_error (e_body m) ∈ events (alerts_script w))
         (attempted (events (alerts_script w))).
Proof. apply logs_alerts_script. Qed.

(** ** Detection after a submission *)

(** X12. A submission is invisible to the alerts page of the same process:
    a detection run made after it ends as it would have ended without it,
    calls the detector on the same matrix, which does not contain the new
    record, and attempts the same e-mails. *)
Theorem submission_invisible_to_detection (w : World) (f : pulse_form)
    (now : string) :
  let before := alerts_script w in
  let after := alerts_script (world (submit_script f now w)) in
  outcome after = outcome before
  ∧ detector_calls (events after) = detector_calls (events before)
  ∧ attempted (events after) = attempted (events before).
Proof.
  intros before after. unfold before, after. clear before after.
  destruct (load_data_run w) as [d Hd].
  assert (outcome (load_data w) = Ok d) as Hload by (by rewrite Hd).
  set (w' := world (submit_script f now w)).
  assert (outcome (load_data w') = Ok d) as Hload'.
  { apply load_data_cached. by apply submit_script_cache. }
  assert (rng w' = rng w) as Hrng.
  { unfold w', submit_script, submit_page. rewrite bind_run, Hd.
    cbn [outcome world events]. rewrite !bind_run.
    cbn [outcome world events emit].
    by destruct (f_submitted f); rewrite ?bind_run. }
  destruct (load_data_run w') as [d' Hd'].
  rewrite Hd' in Hload'. simplify_eq/=.
  unfold alerts_script. rewrite !bind_run, Hd, Hd'.
  cbn [outcome world events].
  assert (seed_determined
            (alerts_page d ≫= λ data', footer ;; ret data')) as Hdet.
  { apply seed_determined_bind; [apply seed_determined_alerts_page|].
    intros dl. unfold footer.
    repeat (apply seed_determined_bind;
            [apply seed_determined_emit|intros _]).
    apply seed_determined_ret. }
  destruct (Hdet (set_cache (Some d) w') (set_cache (Some d) w))
    as (Ho & _ & Hcalls & Hmails); [done|].
  by cbn [app].
Qed.

End Sessions_properties.

(** * Properties of the page selection and the read-only pages *)

(** X13. The six options of the sidebar select, in their order, the
    submission page, the dashboard, the alerts page, the citizen view, the
    export page and nothing: the recent-submissions branch is taken for the
    text "Recent Submissions" only, which has no leading blank and is no
    option of the sidebar, so the last option shows the footer alone. *)
Theorem sidebar_routes :
  route <$> PAGES =
    [Some PageSubmit; Some PageDashboard; Some PageAlerts; Some PageCitizen;
     Some PageExport; None]
  ∧ (∀ page, page ∈ PAGES → route page ≠ Some PageRecent)
  ∧ (∀ page, route page = Some PageRecent ↔ page = "Recent Submissions")
  ∧ (∀ page, route page = Some PageSubmit ↔ page = " Submit Pulse")
  ∧ (∀ page, route page = Some PageDashboard ↔ page = " Sector Dashboard")
  ∧ (∀ page, route page = Some PageAlerts ↔ page = " Alerts")
  ∧ (∀ page, route page = Some PageCitizen ↔ page = " Citizen View")
  ∧ (∀ page, route page = Some PageExport ↔ page = " Export").
Proof.
  split_and!;
    [reflexivity
    |unfold PAGES; intros page; rewrite !elem_of_cons, elem_of_nil;
     intros [->|[->|[->|[->|[->|[->|[]]]]]]]; vm_compute; discriminate
    |intros page; unfold route; repeat case_bool_decide; split; intros;
     subst; try reflexivity; try discriminate; try contradiction..].
Qed.

Section Pages_properties.

Context `{Sorting}.

Lemma v_bind_run {A B} (k : A → Rendered B) (m : Rendered A) :
  m ≫= k =
  match result m with
  | Ok a => mkRendered (shown m ++ shown (k a)) (result (k a))
  | Raised e => mkRendered (shown m) (Raised e)
  end.
Proof. reflexivity. Qed.

(** A row of the selected region and sector. *)
Definition matching (region sector : string) (r : row) : Prop :=
  cell_of r "region" = Str region ∧ cell_of r "sector" = Str sector.

#[local] Instance matching_dec (region sector : string) (r : row) :
  Decision (matching region sector r).
Proof. unfold matching. apply _. Defined.

Lemma getitem_column_present (df : DataFrame) (c : string) :
  c ∈ columns df → getitem_column df c = inr ((λ r, cell_of r c) <$> rows df).
Proof. intros Hc. unfold getitem_column. by rewrite bool_decide_eq_true_2. Qed.

Lemma masked_rows (rs : list row) (region sector : string) :
  (filter (λ p, p.2 = true)
     (zip rs (and_mask
                (eq_mask ((λ r, cell_of r "region") <$> rs) (Str region))
                (eq_mask ((λ r, cell_of r "sector") <$> rs) (Str sector))))).*1
  = filter (matching region sector) rs.
Proof.
  unfold and_mask, eq_mask.
  induction rs as [|r rs IH]; [done|].
  cbn [fmap list_fmap zip_with].
  destruct (decide (matching region sector r)) as [[Hr Hs]|Hn].
  - rewrite !filter_cons_True; [|done|].
    + cbn [fmap list_fmap fst]. by rewrite IH.
    + cbn [snd]. by rewrite !bool_decide_eq_true_2.
  - rewrite !filter_cons_False; [done|done|].
    cbn [snd]. intros Hb. apply andb_true_iff in Hb as [H1 H2].
    apply bool_decide_eq_true_1 in H1, H2. by apply Hn.
Qed.

Lemma columns_not_nil (df : DataFrame) :
  STORE_COLUMNS ⊆ columns df → columns df ≠ [].
Proof.
  intros Hsub Hnil. assert ("region" ∈ columns df) as Hin.
  { apply Hsub. apply (bool_decide_unpack _). by vm_compute. }
  rewrite Hnil in Hin. by apply elem_of_nil in Hin.
Qed.

(** X14. Over a frame with the store's columns and text timestamps, the
    citizen view never raises. When no record has the selected region and
    sector it shows the no-data notice and nothing else; otherwise it shows
    the crowd index, queue time, top items and payment modes of one record
    with that region and sector, and no matching record has a later
    timestamp than the one shown. *)
Theorem citizen_view_shows_latest_match (data : DataFrame)
    (region sector : string) :
  sorts_descending →
  STORE_COLUMNS ⊆ columns data →
  Forall (λ r, ∃ s, cell_of r "timestamp" = Str s) (rows data) →
  result (citizen_view data region sector) = Ok tt
  ∧ (((∀ r, r ∈ rows data → ¬ matching region sector r)
      ∧ shown (citizen_view data region sector) =
          [w_title " Citizen Pulse — Check Crowd Levels";
           w_info "No recent data available for your selection."])
     ∨ ∃ r, r ∈ rows data ∧ matching region sector r
        ∧ (∀ r', r' ∈ rows data → matching region sector r' →
             not_earlier "timestamp" r r')
        ∧ shown (citizen_view data region sector) =
            [w_title " Citizen Pulse — Check Crowd Levels";
             w_metric "Crowd Index" (cell_of r "crowd_index");
             w_metric "Queue Time"
               (Str (str_cell (cell_of r "queue_time") +:+ " mins"));
             w_write ("Top Requests: " +:+ str_cell (cell_of r "top_items"));
             w_write ("Payment Modes: "
                      +:+ str_cell (cell_of r "payment_modes"))]).
Proof.
  intros Hsort Hcols Htext.
  assert (∀ c, bool_decide (c ∈ STORE_COLUMNS) = true → c ∈ columns data)
    as Hin.
  { intros c Hc. apply Hcols. by apply (bool_decide_eq_true_1 (c ∈ STORE_COLUMNS)). }
  unfold citizen_view.
  rewrite !getitem_column_present by (by apply Hin).
  do 3 (rewrite v_bind_run; cbn [show v_lift result shown app]).
  set (filtered := getitem_mask data _).
  assert (rows filtered = filter (matching region sector) (rows data))
    as Hfiltered by apply masked_rows.
  destruct (Hsort "timestamp" filtered)
    as (sorted & Hsorted & Hscols & Hperm & Hs).
  { by apply Hin. }
  { rewrite Hfiltered. apply Forall_forall. intros r Hr.
    apply list_elem_of_filter in Hr as [_ Hr].
    rewrite Forall_forall in Htext. by apply Htext. }
  rewrite v_bind_run, Hsorted.
  cbn [v_lift result shown app]. rewrite Hfiltered in Hperm.
  unfold is_empty, head_rows. cbn [rows columns].
  destruct (rows sorted) as [|r rest] eqn:Hrows.
  - rewrite bool_decide_eq_true_2 by (by left). cbn [show result shown].
    split; [done|]. left. split; [|done].
    intros r Hr Hm. symmetry in Hperm. apply Permutation_nil_r in Hperm.
    assert (r ∈ filter (matching region sector) (rows data)) as Hf
      by (by apply list_elem_of_filter).
    rewrite Hperm in Hf. by apply elem_of_nil in Hf.
  - cbn [take]. rewrite take_0.
    rewrite bool_decide_eq_false_2.
    2:{ intros [?|Hnil]; [done|]. rewrite Hscols in Hnil.
        by apply (columns_not_nil data). }
    unfold getitem_row. cbn [columns].
    rewrite !bool_decide_eq_true_2 by (rewrite Hscols; by apply Hin).
    rewrite !v_bind_run. cbn [show v_lift result shown app].
    split; [done|]. right. exists r.
    assert (r ∈ filter (matching region sector) (rows data)) as Hr
      by (rewrite <- Hperm; left).
    apply list_elem_of_filter in Hr as [Hm Hr].
    split_and!; [done..| |done].
    intros r' Hr' Hm'.
    assert (r' ∈ r :: rest) as Hin'
      by (rewrite Hperm; by apply list_elem_of_filter).
    apply StronglySorted_inv in Hs as [_ Hall].
    apply elem_of_cons in Hin' as [->|Hin'].
    + intros s1 s2 H1 H2. rewrite H1 in H2. simplify_eq.
      destruct (String.leb_total s2 s2); done.
    + rewrite Forall_forall in Hall. by apply Hall.
Qed.

(** X15. Over a frame with a column of text timestamps, the
    recent-submissions page shows one table and never raises: the table has
    the frame's columns and its twenty latest rows, latest first (all rows
    when there are fewer), and every row left out is no later than every row
    shown. *)
Theorem recent_submissions_shows_latest (data : DataFrame) :
  sorts_descending →
  "timestamp" ∈ columns data →
  Forall (λ r, ∃ s, cell_of r "timestamp" = Str s) (rows data) →
  ∃ df rest,
    recent_submissions data =
      mkRendered [w_title "Recent Pulse Submissions"; w_dataframe df] (Ok tt)
    ∧ columns df = columns data
    ∧ len df = len data `min` 20
    ∧ rows df ++ rest ≡ₚ rows data
    ∧ StronglySorted (not_earlier "timestamp") (rows df)
    ∧ (∀ r r', r ∈ rows df → r' ∈ rest → not_earlier "timestamp" r r').
Proof.
  intros Hsort Hcol Htext.
  destruct (Hsort "timestamp" data Hcol Htext)
    as (sorted & Hsorted & Hscols & Hperm & Hs).
  exists (head_rows 20 sorted), (drop 20 (rows sorted)).
  rewrite <- (take_drop 20 (rows sorted)) in Hs.
  split_and!.
  - unfold recent_submissions. rewrite !v_bind_run, Hsorted. done.
  - done.
  - unfold len, head_rows. cbn [rows]. rewrite length_take.
    apply Permutation_length in Hperm. lia.
  - cbn [head_rows rows]. by rewrite take_drop.
  - cbn [head_rows rows]. by eapply StronglySorted_app_1_l.
  - cbn [head_rows rows]. intros r r' Hr Hr'.
    by eapply StronglySorted_app_1_elem_of.
Qed.

End Pages_properties.

(** * The sample sorter meets the sorting contract *)

Lemma string_compare_not_Gt_trans (a b c : string) :
  String.compare a b ≠ Gt → String.compare b c ≠ Gt →
  String.compare a c ≠ Gt.
Proof.
  revert b c. induction a as [|x a IH]; intros [|y b] [|z c]; simpl;
    try congruence.
  unfold Ascii.compare.
  destruct (N.compare_spec (Ascii.N_of_ascii x) (Ascii.N_of_ascii y)),
           (N.compare_spec (Ascii.N_of_ascii y) (Ascii.N_of_ascii z)),
           (N.compare_spec (Ascii.N_of_ascii x) (Ascii.N_of_ascii z));
    try congruence; try lia; eauto.
Qed.

Lemma string_leb_trans (a b c : string) :
  String.leb a b = true → String.leb b c = true → String.leb a c = true.
Proof.
  unfold String.leb. intros Hab Hbc.
  pose proof (string_compare_not_Gt_trans a b c) as Htrans.
  destruct (String.compare a b), (String.compare b c), (String.compare a c);
    try done; by destruct Htrans.
Qed.

#[local] Instance key_order_total (ascending : bool) :
  Total (key_order ascending).
Proof.
  intros p q. unfold key_order.
  destruct ascending; apply String.leb_total.
Qed.

#[local] Instance key_order_trans (ascending : bool) :
  Transitive (key_order ascending).
Proof.
  intros p q r. unfold key_order.
  destruct ascending; eauto using string_leb_trans.
Qed.

Lemma text_key_keyed (c : string) (rs : list row) (keyed : list (string * row)) :
  mapM (text_key c) rs = Some keyed →
  keyed.*2 = rs ∧ Forall (λ p, cell_of p.2 c = Str p.1) keyed.
Proof.
  intros Hk. apply mapM_Some_1 in Hk.
  induction Hk as [|r p rs keyed Hp _ [IH1 IH2]]; [done|].
  unfold text_key in Hp. destruct (cell_of r c) as [|s|] eqn:Hc; simplify_eq/=.
  split; [by f_equal|]. by constructor.
Qed.

Lemma text_sorter_sorts_descending : @sorts_descending text_sorter.
Proof.
  intros c df Hc Htext. unfold sort_values, text_sorter.
  rewrite bool_decide_eq_true_2 by done.
  destruct (mapM (text_key c) (rows df)) as [keyed|] eqn:Hk.
  - destruct (text_key_keyed c (rows df) keyed Hk) as [Hrows Hcells].
    eexists. split; [done|]. cbn [columns rows]. split_and!; [done| |].
    + rewrite <- Hrows. apply fmap_Permutation, merge_sort_Permutation.
    + assert (Forall (λ p, cell_of p.2 c = Str p.1)
                (merge_sort (key_order false) keyed)) as Hsorted_cells.
      { by rewrite merge_sort_Permutation. }
      pose proof (StronglySorted_merge_sort (key_order false) keyed) as Hs.
      induction Hs as [|p ps Hs IH Hall]; [constructor|].
      apply Forall_cons in Hsorted_cells as [Hp Hps].
      cbn [fmap list_fmap]. constructor; [by apply IH|].
      apply Forall_fmap. apply Forall_forall. intros q Hq.
      rewrite Forall_forall in Hall, Hps.
      specialize (Hall q Hq). specialize (Hps q Hq).
      intros s1 s2 H1 H2. simpl in *. rewrite Hp in H1. rewrite Hps in H2.
      by simplify_eq.
  - apply mapM_None_1, Exists_exists in Hk as (r & Hr & Hnone).
    rewrite Forall_forall in Htext. destruct (Htext r Hr) as [s Hs].
    unfold text_key in Hnone. by rewrite Hs in Hnone.
Qed.

(** * Instances of the further properties *)

Lemma load_data_fixed_within_process_witness :
  outcome (load_data (session session_without_restart (world_of store9)))
  = Ok store9
  ∧ cache (world (alerts_script
                    (session session_without_restart (world_of store9))))
    = Some store9
  ∧ ∀ f now,
      cache (world (submit_script f now
                      (session session_without_restart (world_of store9))))
      = Some store9.
Proof.
  apply (load_data_fixed_within_process session_without_restart
           (world_of store9) store9).
  - repeat constructor.
  - reflexivity.
Defined.

Lemma submission_writes_first_loaded_frame_witness :
  file (world (submit_script second_form "10:07"
                 (session session_without_restart (world_of store9))))
  = Stored (concat store9 (new_entry second_form "10:07"))
  ∧ file (world (submit_script second_form "10:07"
                   (session session_without_restart (world_of store9))))
    = file (world (submit_script second_form "10:07" (world_of store9))).
Proof.
  apply (submission_writes_first_loaded_frame session_without_restart
           (world_of store9) store9 second_form "10:07").
  - repeat constructor.
  - reflexivity.
  - reflexivity.
Defined.

Lemma first_submission_appends_to_file_witness :
  ∃ saved,
    file (world (submit_script sample_form "10:05" (world_of store9)))
    = Stored saved
    ∧ rows saved = rows store9 ++ [entry_of_form sample_form "10:05"]
    ∧ len saved = 10.
Proof.
  destruct (first_submission_appends_to_file (world_of store9) store9
              sample_form "10:05")
    as (saved & Hfile & Hrows & Hlen & _); [reflexivity..|].
  exists saved. split_and!; [exact Hfile|exact Hrows|exact Hlen].
Defined.

Lemma first_submission_creates_store_witness :
  file (world (submit_script sample_form "10:05" world_without_file))
  = Stored (mkFrame STORE_COLUMNS [entry_of_form sample_form "10:05"]).
Proof.
  apply (first_submission_creates_store world_without_file sample_form
           "10:05"); [reflexivity|left; reflexivity|reflexivity].
Defined.

Lemma world_without_file_app_state : app_state world_without_file.
Proof. split; intros df Hdf; discriminate Hdf. Qed.

Lemma app_state_session_witness :
  app_state (session session_with_restart world_without_file).
Proof.
  apply (app_state_session session_with_restart world_without_file).
  exact world_without_file_app_state.
Defined.


(** Nine calm rows and one surge: the last row, and only it, is labelled
    anomalous and alerted. *)
Lemma detector_labels_every_observation_witness :
  ∃ d',
    outcome (alerts_script (world_of store10)) = Ok d'
    ∧ labels_of d' = Some (Num <$> replicate 9 1%Z ++ [(-1)%Z])
    ∧ attempted (events (alerts_script (world_of store10)))
      = [row_alert_email (<["anomaly" := Num (-1)]> (surge_row "Mumbai"))].
Proof.
  destruct (detector_labels_every_observation (world_of store10) store10)
    as (Xf & HXf & _ & _ & Hgood & _).
  - reflexivity.
  - unfold len. simpl. lia.
  - reflexivity.
  - exact store10_numeric.
  - vm_compute in HXf. injection HXf as <-.
    destruct Hgood as (d' & Hout & Hrows & Hlabels & _ & Hmails);
      [reflexivity|].
    exists d'. split_and!; [exact Hout|exact Hlabels|].
    rewrite Hmails, Hrows. reflexivity.
Defined.

Lemma labels_aligned_when_returned_witness :
  ∃ d' predictions,
    outcome (alerts_script (world_of store10)) = Ok d'
    ∧ length predictions = 10
    ∧ len d' = 10
    ∧ labels_of d' = Some (Num <$> predictions).
Proof.
  destruct (outcome (alerts_script (world_of store10))) as [d'|e] eqn:Hout.
  - destruct (labels_aligned_when_returned (world_of store10) store10 d')
      as (predictions & Hlen & Hlen' & _ & Hlabels).
    + reflexivity.
    + unfold len. simpl. lia.
    + exact Hout.
    + exists d', predictions.
      split_and!; [reflexivity|exact Hlen|exact Hlen'|exact Hlabels].
  - vm_compute in Hout. discriminate Hout.
Defined.

Lemma misaligned_predictions_abort_witness :
  let w : @World env_silent_forest :=
    @fresh env_silent_forest (Stored store10) 0 0 in
  outcome (alerts_script w)
  = Raised (ValueError "Length of values does not match length of index")
  ∧ detector_calls (events (alerts_script w))
    = [to_matrix (mkFrame FEATURES (rows store10))]
  ∧ attempted (events (alerts_script w)) = [].
Proof.
  apply (misaligned_predictions_abort (H:=env_silent_forest)
           (@fresh env_silent_forest (Stored store10) 0 0) store10
           (replicate 9 [Finite 40; Finite 7; Finite 3]
            ++ [[Finite 900; Finite 90; Finite 10]])).
  - reflexivity.
  - unfold len. simpl. lia.
  - exact FEATURES_stored.
  - reflexivity.
  - unfold len. simpl. lia.
Defined.

Lemma dispatch_missing_column_witness :
  dispatch alerts_without_indices (world_of store9)
  = mkRun (Raised (KeyError "crowd_index")) (world_of store9) [].
Proof.
  destruct (dispatch_missing_column alerts_without_indices (world_of store9))
    as [_ Hrows].
  - apply (bool_decide_unpack _). by vm_compute.
  - destruct Hrows as (c & later & Hfirst & Hrun); [discriminate|].
    vm_compute in Hfirst. injection Hfirst as <- _. exact Hrun.
Defined.

Lemma store_dated_timestamps :
  Forall (λ r, ∃ s, cell_of r "timestamp" = Str s) (rows store_dated).
Proof. repeat (constructor; [eexists; reflexivity|]). constructor. Qed.

Lemma citizen_view_shows_latest_match_witness :
  result (citizen_view (H:=text_sorter) store_dated "Mumbai" "Retail") = Ok tt
  ∧ ∃ r, r ∈ rows store_dated ∧ matching "Mumbai" "Retail" r
      ∧ (∀ r', r' ∈ rows store_dated → matching "Mumbai" "Retail" r' →
           not_earlier "timestamp" r r').
Proof.
  destruct (citizen_view_shows_latest_match (H:=text_sorter) store_dated
              "Mumbai" "Retail") as [Hres [[Hnone _]|(r & Hr & Hm & Hmax & _)]].
  - exact text_sorter_sorts_descending.
  - reflexivity.
  - exact store_dated_timestamps.
  - exfalso. apply (Hnone (dated_row "Mumbai" "Retail" "2025-09-01 09:00:00" 2)).
    + left.
    + split; reflexivity.
  - split; [exact Hres|]. exists r. split_and!; [exact Hr|exact Hm|exact Hmax].
Defined.

(** Of the three Mumbai retail records, the view shows the one of 18:30. *)
Example citizen_view_mumbai_retail :
  citizen_view (H:=text_sorter) store_dated "Mumbai" "Retail"
  = mkRendered
      [w_title " Citizen Pulse — Check Crowd Levels";
       w_metric "Crowd Index" (Num 8);
       w_metric "Queue Time" (Str "5 mins");
       w_write "Top Requests: chai";
       w_write "Payment Modes: UPI"]
      (Ok tt).
Proof. by vm_compute. Qed.

Example citizen_view_no_record :
  citizen_view (H:=text_sorter) store_dated "Chennai" "Finance"
  = mkRendered
      [w_title " Citizen Pulse — Check Crowd Levels";
       w_info "No recent data available for your selection."]
      (Ok tt).
Proof. by vm_compute. Qed.

Lemma recent_submissions_shows_latest_witness :
  ∃ df rest,
    recent_submissions (H:=text_sorter) store_dated =
      mkRendered [w_title "Recent Pulse Submissions"; w_dataframe df] (Ok tt)
    ∧ columns df = columns store_dated
    ∧ len df = 4
    ∧ rows df ++ rest ≡ₚ rows store_dated.
Proof.
  destruct (recent_submissions_shows_latest (H:=text_sorter) store_dated)
    as (df & rest & Hrun & Hcols & Hlen & Hperm & _).
  - exact text_sorter_sorts_descending.
  - apply (bool_decide_unpack _). by vm_compute.
  - exact store_dated_timestamps.
  - exists df, rest. split_and!; [exact Hrun|exact Hcols|exact Hlen|exact Hperm].
Defined.
